(** * The palette selector of [interface.js]

    A shallow embedding of the three functions of [interface.js]
    ([applyPalette], [createPaletteButtons], [initializeInterface]) over an
    explicit model of what the script can observe and change: the inline
    style of the document root, the children of the button container, the
    console, and the sequence of network retrievals and timer waits.  How
    the host reads the value of a style declaration is a parameter of the
    development. *)

From Stdlib Require Import ZArith Ascii String.
From stdpp Require Import gmap strings list fin_maps pretty.

Set Warnings "-register-all".

(** ** Values produced by [response.json()]

    The script is dynamically typed: what [response.json()] yields is
    whatever the resource holds.  [VUndef] is never in a parsed document;
    it is what a read of an absent property gives.  A number takes part in
    the script only through its conversion to a string, so it is kept as
    that rendering. *)

Inductive value : Type :=
  | VUndef
  | VNull
  | VBool (b : bool)
  | VNum (shown : string)
  | VStr (s : string)
  | VArr (items : list value)
  | VObj (props : list (string * value)).

Inductive exn : Type :=
  | TypeError
  | SyntaxError
  | Error (message : string).

(** Outcome of evaluating a piece of script: a value, or a thrown
    exception. *)
Inductive completion (A : Type) : Type :=
  | Normal (a : A)
  | Throw (e : exn).
Arguments Normal {A} a.
Arguments Throw {A} e.

(** Own properties of an object, as an association list (first binding of a
    key is the property). *)
Fixpoint own_prop (k : string) (props : list (string * value)) : option value :=
  match props with
  | [] => None
  | (k', v) :: rest => if String.eqb k k' then Some v else own_prop k rest
  end.

(** [v.k] for the property names the script reads ([name], [primary],
    [secondary], [text], [background]): none of them is defined on the
    prototypes of booleans, numbers, strings or arrays, so only an object's
    own properties can supply them; on [null] and [undefined] the read
    throws. *)
Definition Get (v : value) (k : string) : completion value :=
  match v with
  | VUndef | VNull => Throw TypeError
  | VObj props => Normal (default VUndef (own_prop k props))
  | _ => Normal VUndef
  end.

(** [Array.prototype.join] with the default separator, given the
    conversion of an element. *)
Fixpoint join (conv : value -> completion string) (items : list value)
  : completion string :=
  match items with
  | [] => Normal EmptyString
  | v :: rest =>
      match conv v with
      | Throw e => Throw e
      | Normal s =>
          match rest with
          | [] => Normal s
          | _ =>
              match join conv rest with
              | Throw e => Throw e
              | Normal t => Normal (s +:+ "," +:+ t)
              end
          end
      end
  end.

(** The language's [ToString].  A parsed object is converted by
    [Object.prototype.toString] unless it has an own property [toString]:
    that property is data, not a function, the fallback [valueOf] does not
    give a primitive either, and the conversion throws.  An array is joined,
    [null] and [undefined] elements giving the empty string. *)
Fixpoint ToString (v : value) : completion string :=
  match v with
  | VUndef => Normal "undefined"
  | VNull => Normal "null"
  | VBool b => Normal (if b then "true" else "false")
  | VNum shown => Normal shown
  | VStr s => Normal s
  | VArr items =>
      join (fun x => match x with
                     | VUndef | VNull => Normal EmptyString
                     | _ => ToString x
                     end) items
  | VObj props =>
      match own_prop "toString" props with
      | Some _ => Throw TypeError
      | None => Normal "[object Object]"
      end
  end.

(** Conversion of the value assigned to [textContent] (a nullable string
    attribute: [null] and [undefined] clear the text). *)
Definition to_text (v : value) : completion string :=
  match v with
  | VUndef | VNull => Normal EmptyString
  | _ => ToString v
  end.

(** Conversion of a value handed to a style declaration ([null] is the
    empty string, anything else goes through [ToString]). *)
Definition to_css (v : value) : completion string :=
  match v with
  | VNull => Normal EmptyString
  | _ => ToString v
  end.

(** ** The document, the console, the network and the timer *)

(** A click listener of the script is the closure
    [() => applyPalette(palette)]; it is represented by the palette it
    captured. *)
Inductive listener : Type :=
  | ApplyOnClick (palette : value).

Record element : Type := mkElement {
  tag : string;
  textContent : string;
  className : string;
  style : gmap string string;
  listeners : list listener
}.

Inductive console_entry : Type :=
  | ConsoleLog (message : string)
  | ConsoleError (message : string) (detail : option exn).

Inductive event : Type :=
  | EvFetch (resource : string)
  | EvWait (ms : Z).

Record Response : Type := mkResponse {
  ok : bool;
  status : N;
  statusText : string;
  json : option value   (* [None]: the body is not valid JSON *)
}.

(** What one call of [fetch] settles to: a response, or a rejection (the
    retrieval itself failed). *)
Inductive fetch_outcome : Type :=
  | Responds (r : Response)
  | Rejects.

(** [root_style]: the inline declarations of [document.documentElement];
    [container]: the children of the element with id
    [BUTTONS_CONTAINER_ID], [None] when the document has no such element;
    [trace]: the retrievals and waits performed so far, oldest first. *)
Record world : Type := mkWorld {
  root_style : gmap string string;
  container : option (list element);
  console : list console_entry;
  trace : list event
}.

(** ** Script computations: state passing with exceptions *)

Definition M (A : Type) : Type := world -> completion A * world.

Definition ret {A} (a : A) : M A := fun w => (Normal a, w).

Definition bind {A B} (c : M A) (k : A -> M B) : M B :=
  fun w =>
    match c w with
    | (Normal a, w') => k a w'
    | (Throw e, w') => (Throw e, w')
    end.

Definition throw {A} (e : exn) : M A := fun w => (Throw e, w).

Definition lift {A} (c : completion A) : M A := fun w => (c, w).

Definition try_catch (body : M unit) (handler : exn -> M unit) : M unit :=
  fun w =>
    match body w with
    | (Normal a, w') => (Normal a, w')
    | (Throw e, w') => handler e w'
    end.

Declare Scope script_scope.
Delimit Scope script_scope with script.
Notation "'let*' x ':=' c 'in' k" := (bind c (fun x => k))
  (at level 10, x name, c at level 100, k at level 200) : script_scope.
Notation "c '>>' k" := (bind c (fun _ => k))
  (at level 90, right associativity) : script_scope.
Local Open Scope script_scope.

Definition exec {A} (c : M A) (w : world) : world := snd (c w).
Definition outcome {A} (c : M A) (w : world) : completion A := fst (c w).

(** ** Configuration *)

Definition PALETTES_FILE : string := "pallets.json".
Definition BUTTONS_CONTAINER_ID : string := "palette-selector".

(** ** A host for the sample runs

    A host that knows six-digit hexadecimal colours, the keyword [white]
    and the length [2px], and nothing else.  A custom property keeps a
    colour as written; a colour property keeps it in the functional
    notation. *)

Definition hex_value (c : ascii) : option N :=
  let n := N_of_ascii c in
  if (48 <=? n)%N && (n <=? 57)%N then Some (n - 48)%N
  else if (97 <=? n)%N && (n <=? 102)%N then Some (n - 87)%N
  else if (65 <=? n)%N && (n <=? 70)%N then Some (n - 55)%N
  else None.

Definition hex_pair (a b : ascii) : option N :=
  match hex_value a, hex_value b with
  | Some h, Some l => Some (16 * h + l)%N
  | _, _ => None
  end.

Definition hex_colour (s : string) : option (N * N * N) :=
  match s with
  | String "#" (String a (String b (String c (String d (String e
      (String f EmptyString)))))) =>
      match hex_pair a b, hex_pair c d, hex_pair e f with
      | Some r, Some g, Some bl => Some (r, g, bl)
      | _, _, _ => None
      end
  | _ => None
  end.

Definition hex_host (prop s : string) : option string :=
  if String.prefix "--" prop then
    match hex_colour s with
    | Some _ => Some s
    | None => None
    end
  else if bool_decide (prop ∈ ["color"; "borderColor"; "backgroundColor"])
  then
    if String.eqb s "white" then Some "white"
    else
      match hex_colour s with
      | Some (r, g, bl) =>
          Some ("rgb(" +:+ pretty r +:+ ", " +:+ pretty g +:+ ", "
                +:+ pretty bl +:+ ")")
      | None => None
      end
  else if String.eqb prop "borderWidth" && String.eqb s "2px"
  then Some "2px"
  else None.

(** ** Host operations used by the script *)

Section Host.

(** The host's reading of declaration values: [host_parse prop s] is the
    form in which the host keeps the non-empty string [s] as the value of
    the property [prop], or [None] when it does not accept [s] for [prop].
    Everything below holds for every host. *)
Variable host_parse : string -> string -> option string.

(** The value of a property after the string [s] is assigned to it, given
    its value before: the empty string removes the declaration, a string
    the host does not accept leaves it as it was, any other string is kept
    in the host's form. *)
Definition declared (prop s : string) (prior : option string)
  : option string :=
  match s with
  | EmptyString => None
  | String _ _ =>
      match host_parse prop s with
      | Some stored => Some stored
      | None => prior
      end
  end.

(** The declarations [m] after the string [s] is assigned to [prop]. *)
Definition assign (prop s : string) (m : gmap string string)
  : gmap string string :=
  match s with
  | EmptyString => delete prop m
  | String _ _ =>
      match host_parse prop s with
      | Some stored => <[prop := stored]> m
      | None => m
      end
  end.

(** [document.documentElement.style.setProperty(name, value)]. *)
Definition setProperty (name : string) (v : value) : M unit :=
  let* s := lift (to_css v) in
  fun w =>
    (Normal tt,
     mkWorld (assign name s (root_style w)) (container w) (console w)
       (trace w)).

Definition console_log (message : string) : M unit :=
  fun w =>
    (Normal tt,
     mkWorld (root_style w) (container w)
       (console w ++ [ConsoleLog message]) (trace w)).

Definition console_error (message : string) (detail : option exn) : M unit :=
  fun w =>
    (Normal tt,
     mkWorld (root_style w) (container w)
       (console w ++ [ConsoleError message detail]) (trace w)).

(** [document.getElementById(BUTTONS_CONTAINER_ID)]: does the container
    exist. *)
Definition getContainer : M bool :=
  fun w => (Normal (bool_decide (is_Some (container w))), w).

(** [container.innerHTML = ...], given the nodes the markup stands for. *)
Definition set_innerHTML (nodes : list element) : M unit :=
  fun w =>
    (Normal tt,
     mkWorld (root_style w) ((fun _ => nodes) <$> container w) (console w)
       (trace w)).

(** [container.appendChild(node)]. *)
Definition appendChild (node : element) : M unit :=
  fun w =>
    (Normal tt,
     mkWorld (root_style w) ((fun kids : list element => kids ++ [node]) <$> container w)
       (console w) (trace w)).

(** ** [applyPalette] *)

Definition applyPalette (palette : value) : M unit :=
  let* primary := lift (Get palette "primary") in
  setProperty "--color-primary" primary >>
  let* secondary := lift (Get palette "secondary") in
  setProperty "--color-secondary" secondary >>
  let* text := lift (Get palette "text") in
  setProperty "--color-text" text >>
  let* background := lift (Get palette "background") in
  setProperty "--color-background" background >>
  let* name := lift (Get palette "name") in
  let* shown := lift (ToString name) in
  console_log ("Applied palette: " +:+ shown).

(** ** [createPaletteButtons] *)

Definition BUTTON_CLASS : string :=
  "px-4 py-2 m-1 text-sm font-medium rounded-lg transition-colors duration-200 shadow-md".

(** [document.createElement(tag)]: an element not yet in the document, so
    the assignments to it below are updates of a local record. *)
Definition createElement (tag : string) : element :=
  mkElement tag EmptyString EmptyString ∅ [].

Definition set_textContent (e : element) (s : string) : element :=
  mkElement (tag e) s (className e) (style e) (listeners e).

Definition set_className (e : element) (s : string) : element :=
  mkElement (tag e) (textContent e) s (style e) (listeners e).

(** [e.style.prop = s]: the same assignment as [setProperty], on the
    inline style of [e]. *)
Definition set_style (e : element) (prop s : string) : element :=
  mkElement (tag e) (textContent e) (className e) (assign prop s (style e))
    (listeners e).

Definition addEventListener (e : element) (l : listener) : element :=
  mkElement (tag e) (textContent e) (className e) (style e)
    (listeners e ++ [l]).

(** The callback handed to [palettes.forEach]. *)
Definition palette_button (palette : value) : M unit :=
  let button := createElement "button" in
  let* name := lift (Get palette "name") in
  let* label := lift (to_text name) in
  let button := set_textContent button label in
  let button := set_className button BUTTON_CLASS in
  let button := set_style button "backgroundColor" "white" in
  let* primary := lift (Get palette "primary") in
  let* color := lift (to_css primary) in
  let button := set_style button "color" color in
  let* primary := lift (Get palette "primary") in
  let* borderColor := lift (to_css primary) in
  let button := set_style button "borderColor" borderColor in
  let button := set_style button "borderWidth" "2px" in
  let button := addEventListener button (ApplyOnClick palette) in
  appendChild button.

Fixpoint forEach (items : list value) (callback : value -> M unit) : M unit :=
  match items with
  | [] => ret tt
  | v :: rest => callback v >> forEach rest callback
  end.

Definition CONTAINER_MISSING : string :=
  "Container element with ID " +:+ String "034"%char BUTTONS_CONTAINER_ID
  +:+ String "034"%char " not found.".

(** Only an array has a callable [forEach]: on [null] the read of the
    property throws, on every other parsed value the property is absent or
    is data, and the call throws.  So [palettes.length] and [palettes[0]]
    are reached for arrays only. *)
Definition createPaletteButtons (palettes : value) : M unit :=
  let* found := getContainer in
  if negb found then console_error CONTAINER_MISSING None
  else
    set_innerHTML [] >>
    match palettes with
    | VArr items =>
        forEach items palette_button >>
        if (0 <? length items)%nat
        then applyPalette (default VUndef (items !! 0))
        else ret tt
    | _ => throw TypeError
    end.

(** ** Activating a control *)

Definition run_listener (l : listener) : M unit :=
  match l with
  | ApplyOnClick palette => applyPalette palette
  end.

Fixpoint run_listeners (ls : list listener) : M unit :=
  match ls with
  | [] => ret tt
  | l :: rest => run_listener l >> run_listeners rest
  end.

(** A click on an element runs its click listeners in the order they were
    added. *)
Definition click (e : element) : M unit := run_listeners (listeners e).

(** A click on the [k]-th child of the container, if there is one. *)
Definition click_control (k : nat) : M unit :=
  fun w =>
    match container w ≫= (fun kids => kids !! k) with
    | Some e => click e w
    | None => (Normal tt, w)
    end.

(** ** [initializeInterface] *)

Fixpoint fetches (t : list event) : nat :=
  match t with
  | [] => 0
  | EvFetch _ :: rest => S (fetches rest)
  | EvWait _ :: rest => fetches rest
  end.

Fixpoint waits (t : list event) : list Z :=
  match t with
  | [] => []
  | EvFetch _ :: rest => waits rest
  | EvWait ms :: rest => ms :: waits rest
  end.

(** [await fetch(resource)]: the network [net] answers the retrievals in
    the order they are issued; a rejection surfaces as an exception at the
    [await]. *)
Definition fetch (net : nat -> fetch_outcome) (resource : string) : M Response :=
  fun w =>
    let w' := mkWorld (root_style w) (container w) (console w)
                (trace w ++ [EvFetch resource]) in
    match net (fetches (trace w)) with
    | Responds r => (Normal r, w')
    | Rejects => (Throw TypeError, w')
    end.

(** [await new Promise(resolve => setTimeout(resolve, ms))]. *)
Definition wait (ms : Z) : M unit :=
  fun w =>
    (Normal tt,
     mkWorld (root_style w) (container w) (console w)
       (trace w ++ [EvWait ms])).

(** [await response.json()]. *)
Definition response_json (r : Response) : M value :=
  match json r with
  | Some v => ret v
  | None => throw SyntaxError
  end.

Definition maxRetries : nat := 3.

(** The [for] loop: [remaining] iterations are left, [i] is the loop
    variable, [response] the variable declared before the loop. *)
Fixpoint retry_loop (net : nat -> fetch_outcome) (remaining : nat) (i : Z)
    (response : option Response) : M (option Response) :=
  match remaining with
  | O => ret response
  | S remaining' =>
      let* r := fetch net PALETTES_FILE in
      if ok r then ret (Some r)
      else
        wait (2 ^ i * 100) >>
        retry_loop net remaining' (i + 1) (Some r)
  end.

Definition failure_message (r : Response) : string :=
  "Failed to fetch " +:+ PALETTES_FILE +:+ " after " +:+ pretty maxRetries
  +:+ " attempts: " +:+ pretty (status r) +:+ " " +:+ statusText r.

(** The statements of the [try] block up to and including the parse of
    the body: the retry loop, the check of the last response, and
    [response.json()]. *)
Definition load (net : nat -> fetch_outcome) : M value :=
  let* response := retry_loop net maxRetries 0 None in
  match response with
  | None => throw TypeError
  | Some r =>
      (if negb (ok r) then throw (Error (failure_message r)) else ret tt) >>
      response_json r
  end.

(** The node that the markup assigned in the [catch] block stands for: one
    [p] element of class [text-red-600 text-sm] whose text is the error
    message. *)
Definition ERROR_NOTICE : element :=
  mkElement "p" "Error loading color palettes. Check console for details."
    "text-red-600 text-sm" ∅ [].

Definition on_error (error : exn) : M unit :=
  console_error "Error loading or processing palettes:" (Some error) >>
  let* found := getContainer in
  if found then set_innerHTML [ERROR_NOTICE] else ret tt.

Definition initializeInterface (net : nat -> fetch_outcome) : M unit :=
  try_catch
    (let* palettes := load net in
     createPaletteButtons palettes)
    on_error.

(** ** Well-formed palettes *)

(** A palette as the resource format describes it: five string fields. *)
Record Palette : Type := mkPalette {
  name : string;
  primary : string;
  secondary : string;
  text : string;
  background : string
}.

Definition palette_value (p : Palette) : value :=
  VObj [("name", VStr (name p)); ("primary", VStr (primary p));
        ("secondary", VStr (secondary p)); ("text", VStr (text p));
        ("background", VStr (background p))].

Definition palettes_value (P : list Palette) : value :=
  VArr (palette_value <$> P).

(** ** The theme and the controls, as read back from the document *)

Definition theme_vars : list string :=
  ["--color-primary"; "--color-secondary"; "--color-text";
   "--color-background"].

(** The four global style variables, in the order of [theme_vars]. *)
Definition active_theme (w : world) : list (option string) :=
  (fun var => root_style w !! var) <$> theme_vars.

(** The four colours of [p] as the palette gives them. *)
Definition palette_theme (p : Palette) : list (option string) :=
  [Some (primary p); Some (secondary p); Some (text p);
   Some (background p)].

(** The root declarations after the four [setProperty] calls of
    [applyPalette] on a well-formed palette. *)
Definition with_theme (p : Palette) (m : gmap string string)
  : gmap string string :=
  assign "--color-background" (background p)
    (assign "--color-text" (text p)
       (assign "--color-secondary" (secondary p)
          (assign "--color-primary" (primary p) m))).

(** The four variables after [applyPalette] on a well-formed palette,
    given the root declarations before. *)
Definition theme_after (p : Palette) (m : gmap string string)
  : list (option string) :=
  [declared "--color-primary" (primary p) (m !! "--color-primary");
   declared "--color-secondary" (secondary p) (m !! "--color-secondary");
   declared "--color-text" (text p) (m !! "--color-text");
   declared "--color-background" (background p) (m !! "--color-background")].

(** The host accepts [s] as a value of [prop]. *)
Definition accepts (prop s : string) : bool :=
  match s with
  | EmptyString => false
  | String _ _ =>
      match host_parse prop s with
      | Some _ => true
      | None => false
      end
  end.

(** The host accepts the four colours of [p] as values of the theme
    variables. *)
Definition accepted (p : Palette) : bool :=
  accepts "--color-primary" (primary p)
  && accepts "--color-secondary" (secondary p)
  && accepts "--color-text" (text p)
  && accepts "--color-background" (background p).

(** The four colours of [p] in the form the host keeps them. *)
Definition stored_theme (p : Palette) : list (option string) :=
  [host_parse "--color-primary" (primary p);
   host_parse "--color-secondary" (secondary p);
   host_parse "--color-text" (text p);
   host_parse "--color-background" (background p)].

(** The inline style of a button after the four assignments of the
    [forEach] callback, [color] being the string assigned to the colour and
    to the border colour. *)
Definition button_style (color : string) : gmap string string :=
  assign "borderWidth" "2px"
    (assign "borderColor" color
       (assign "color" color (assign "backgroundColor" "white" ∅))).

(** The button that one run of the [forEach] callback builds for a
    well-formed palette. *)
Definition button_of (p : Palette) : element :=
  mkElement "button" (name p) BUTTON_CLASS (button_style (primary p))
    [ApplyOnClick (palette_value p)].

Definition has_container (w : world) : Prop := is_Some (container w).

(** The document after [createPaletteButtons] on well-formed palettes. *)
Definition rendered (P : list Palette) (w : world) : world :=
  match container w with
  | None =>
      mkWorld (root_style w) None
        (console w ++ [ConsoleError CONTAINER_MISSING None]) (trace w)
  | Some _ =>
      match P with
      | [] => mkWorld (root_style w) (Some []) (console w) (trace w)
      | p :: _ =>
          mkWorld (with_theme p (root_style w)) (Some (button_of <$> P))
            (console w ++ [ConsoleLog ("Applied palette: " +:+ name p)])
            (trace w)
      end
  end.

(** ** Vocabulary for the retry loop *)

Definition add_trace (w : world) (t : list event) : world :=
  mkWorld (root_style w) (container w) (console w) (trace w ++ t).

(** An attempt that the loop answers with a wait: a response whose [ok]
    is false. *)
Definition fails_by_status (o : fetch_outcome) : bool :=
  match o with
  | Responds r => negb (ok r)
  | Rejects => false
  end.

(** The [count] retrievals numbered [from], [from + 1], ... all fail by
    status. *)
Fixpoint status_failures (net : nat -> fetch_outcome) (from count : nat)
  : bool :=
  match count with
  | O => true
  | S count' =>
      fails_by_status (net from) && status_failures net (S from) count'
  end.

(** The response variable after those retrievals. *)
Fixpoint last_seen (net : nat -> fetch_outcome) (from count : nat)
    (response : option Response) : option Response :=
  match count with
  | O => response
  | S count' =>
      last_seen net (S from) count'
        (match net from with
         | Responds r => Some r
         | Rejects => response
         end)
  end.

(** The events of [count] failed iterations starting at loop variable
    [i]. *)
Fixpoint backoff (i : Z) (count : nat) : list event :=
  match count with
  | O => []
  | S count' =>
      EvFetch PALETTES_FILE :: EvWait (2 ^ i * 100) :: backoff (i + 1) count'
  end.

(** [c] keeps the property [I] of the document, however it completes. *)
Definition preserves (I : world -> Prop) {A} (c : M A) : Prop :=
  forall w, I w -> I (snd (c w)).

(** ** Sample data *)

Definition ocean : Palette :=
  mkPalette "Ocean" "#006994" "#0099cc" "#ffffff" "#f0f8ff".

Definition dusk : Palette :=
  mkPalette "Dusk" "#4b3f72" "#7a6ba8" "#f5f0ff" "#1f1a30".

(** A page with an empty container and nothing applied. *)
Definition fresh_page : world := mkWorld ∅ (Some []) [] [].

(** A control left over from an earlier script. *)
Definition stale_button : element :=
  mkElement "button" "Old" "stale" ∅ [].

(** A page whose container holds something already and whose primary
    variable is set. *)
Definition used_page : world :=
  mkWorld (<["--color-primary" := "#000000"]> ∅)
    (Some [stale_button]) [] [].

(** A well-formed palette whose primary the host of the sample runs does
    not accept (a semicolon ends a declaration) and whose secondary is
    empty. *)
Definition sloppy : Palette :=
  mkPalette "Sloppy" "red;" EmptyString "#ffffff" "#f0f8ff".

Definition served (v : value) : Response :=
  mkResponse true 200 "OK" (Some v).

Definition unavailable : Response :=
  mkResponse false 503 "Service Unavailable" None.


(** Networks: always failing by status; failing by status twice and then
    by a different status; rejecting the first retrieval and serving the
    palettes afterwards; failing once by status and then serving. *)
Definition always_unavailable : nat -> fetch_outcome :=
  fun _ => Responds unavailable.


Definition rejects_once : nat -> fetch_outcome :=
  fun k =>
    match k with
    | O => Rejects
    | S _ => Responds (served (palettes_value [ocean]))
    end.

Definition unavailable_once : nat -> fetch_outcome :=
  fun k =>
    match k with
    | O => Responds unavailable
    | S _ => Responds (served (palettes_value [ocean]))
    end.

Definition always_serves (v : value) : nat -> fetch_outcome :=
  fun _ => Responds (served v).

Definition unavailable_then_rejects : nat -> fetch_outcome :=
  fun k =>
    match k with
    | O => Responds unavailable
    | S _ => Rejects
    end.


(** A success response whose body is not valid JSON. *)
Definition garbled : Response := mkResponse true 200 "OK" None.

(** Parsed documents on which the presenter throws: an entry whose
    [secondary] cannot be converted to a string, an array with a [null]
    entry, and a document that is not an array. *)
Definition odd_secondary : value :=
  VArr [VObj [("name", VStr "Odd"); ("primary", VStr "#111111");
              ("secondary", VObj [("toString", VNum "1")])]].

Definition null_entry : value := VArr [palette_value ocean; VNull].

Definition not_a_list : value := VObj [("palettes", VArr [palette_value ocean])].

(** ** Vocabulary for runs on arbitrary networks and documents *)

(** How many of the retrievals numbered [from], [from + 1], ... fail by
    status before one does not, looking at [fuel] of them at most. *)
Fixpoint leading_failures (net : nat -> fetch_outcome) (from fuel : nat)
  : nat :=
  match fuel with
  | O => 0
  | S fuel' =>
      if fails_by_status (net from)
      then S (leading_failures net (S from) fuel')
      else 0
  end.

(** The events of the statements of [load], read off the answers of the
    network: the failed iterations, and the retrieval that ended the loop
    early if one did. *)
Definition load_events (net : nat -> fetch_outcome) (from : nat)
  : list event :=
  let k := leading_failures net from maxRetries in
  backoff 0 k ++ (if (k <? maxRetries)%nat then [EvFetch PALETTES_FILE] else []).

(** The completion of the statements of [load], read off the answers of
    the network. *)
Definition load_result (net : nat -> fetch_outcome) (from : nat)
  : completion value :=
  let k := leading_failures net from maxRetries in
  if (k <? maxRetries)%nat then
    match net (from + k) with
    | Rejects => Throw TypeError
    | Responds r =>
        match json r with
        | Some v => Normal v
        | None => Throw SyntaxError
        end
    end
  else
    match net (from + 2) with
    | Responds r => Throw (Error (failure_message r))
    | Rejects => Throw TypeError
    end.

(** The document [w] with the container present and holding [kids]. *)
Definition with_children (w : world) (kids : list element) : world :=
  mkWorld (root_style w) (Some kids) (console w) (trace w).

(** The local part of the [forEach] callback: the button as it stands when
    it is appended, or the exception thrown before that. *)
Definition build_button (palette : value) : completion element :=
  match Get palette "name" with
  | Throw e => Throw e
  | Normal name =>
      match to_text name with
      | Throw e => Throw e
      | Normal label =>
          match Get palette "primary" with
          | Throw e => Throw e
          | Normal primary =>
              match to_css primary with
              | Throw e => Throw e
              | Normal color =>
                  Normal
                    (mkElement "button" label BUTTON_CLASS
                       (button_style color) [ApplyOnClick palette])
              end
          end
      end
  end.

(** Does the read [c] give a value that [conv] converts. *)
Definition converts (c : completion value)
    (conv : value -> completion string) : bool :=
  match c with
  | Normal x =>
      match conv x with
      | Normal _ => true
      | Throw _ => false
      end
  | Throw _ => false
  end.

(** The reads and conversions of the [forEach] callback go through. *)
Definition button_ok (v : value) : bool :=
  converts (Get v "name") to_text && converts (Get v "primary") to_css.

(** The reads and conversions of [applyPalette] go through. *)
Definition apply_ok (v : value) : bool :=
  converts (Get v "primary") to_css
  && converts (Get v "secondary") to_css
  && converts (Get v "text") to_css
  && converts (Get v "background") to_css
  && converts (Get v "name") ToString.

(** The parsed documents on which nothing in [createPaletteButtons]
    throws: arrays whose entries all pass the callback and whose first
    entry, if any, passes [applyPalette]. *)
Definition presentable (v : value) : bool :=
  match v with
  | VArr items =>
      forallb button_ok items
      && match items with
         | [] => true
         | first :: _ => apply_ok first
         end
  | _ => false
  end.

(** More sample data: entries that are not well-formed palettes but on
    which nothing throws (an object without fields; a number; an object
    whose [primary] is a number and whose [name] is [null]). *)
Definition loose_entries : value :=
  VArr [VObj []; VNum "7";
        VObj [("primary", VNum "255"); ("name", VNull)]].

Definition unavailable_twice : nat -> fetch_outcome :=
  fun k =>
    if (k <? 2)%nat then Responds unavailable
    else Responds (served (palettes_value [ocean; dusk])).

Definition unavailable_then_garbled : nat -> fetch_outcome :=
  fun k =>
    match k with
    | O => Responds unavailable
    | S _ => Responds garbled
    end.

(** A page without the container. *)
Definition bare_page : world :=
  mkWorld (<["--color-primary" := "#000000"]> ∅) None [] [].

(** A page whose root carries a declaration of its own. *)
Definition styled_page : world :=
  mkWorld (<["font-size" := "14px"]> ∅) (Some []) [] [].

(** ** Facts about the root declarations *)

Lemma lookup_assign_eq (prop s : string) (m : gmap string string) :
  assign prop s m !! prop = declared prop s (m !! prop).
Proof.
  unfold assign, declared. destruct s as [| c s].
  - apply lookup_delete_eq.
  - destruct (host_parse prop (String c s)); [| done].
    apply lookup_insert_eq.
Qed.

Lemma lookup_assign_ne (prop s : string) (m : gmap string string)
    (k : string) :
  k <> prop -> assign prop s m !! k = m !! k.
Proof.
  intros Hk. unfold assign. destruct s as [| c s].
  - by apply lookup_delete_ne.
  - destruct (host_parse prop (String c s)); [| done].
    by apply lookup_insert_ne.
Qed.

Lemma declared_idem (prop s : string) (prior : option string) :
  declared prop s (declared prop s prior) = declared prop s prior.
Proof.
  unfold declared. destruct s as [| c s]; [done |].
  by destruct (host_parse prop (String c s)).
Qed.

Lemma declared_accepts (prop s : string) (prior : option string) :
  accepts prop s = true -> declared prop s prior = host_parse prop s.
Proof.
  unfold accepts, declared. destruct s as [| c s]; [done |].
  by destruct (host_parse prop (String c s)).
Qed.

Lemma with_theme_lookup (p : Palette) (m : gmap string string)
    (k : string) :
  with_theme p m !! k =
  if decide (k = "--color-background")
  then declared k (background p) (m !! k)
  else if decide (k = "--color-text")
  then declared k (text p) (m !! k)
  else if decide (k = "--color-secondary")
  then declared k (secondary p) (m !! k)
  else if decide (k = "--color-primary")
  then declared k (primary p) (m !! k)
  else m !! k.
Proof.
  unfold with_theme.
  repeat (case_decide;
          [ subst k; rewrite ?lookup_assign_eq;
            by rewrite ?lookup_assign_ne by done
          | rewrite (lookup_assign_ne _ _ _ k) by done ]).
  done.
Qed.

Lemma with_theme_vars (p : Palette) (m : gmap string string) :
  (fun var => with_theme p m !! var) <$> theme_vars = theme_after p m.
Proof.
  unfold theme_vars, theme_after. cbn [fmap list_fmap].
  by rewrite !with_theme_lookup.
Qed.

Lemma theme_after_accepted (p : Palette) (m : gmap string string) :
  accepted p = true -> theme_after p m = stored_theme p.
Proof.
  unfold accepted, theme_after, stored_theme. intros Hp.
  apply andb_prop in Hp as [Hp H4]. apply andb_prop in Hp as [Hp H3].
  apply andb_prop in Hp as [H1 H2].
  by rewrite !declared_accepts.
Qed.

Lemma with_theme_other (p : Palette) (m : gmap string string) (var : string) :
  var ∉ theme_vars -> with_theme p m !! var = m !! var.
Proof.
  unfold theme_vars. intros Hvar. rewrite with_theme_lookup.
  repeat (case_decide; [subst var; exfalso; apply Hvar; set_solver |]).
  done.
Qed.

Lemma with_theme_idem (p : Palette) (m : gmap string string) :
  with_theme p (with_theme p m) = with_theme p m.
Proof.
  apply map_eq. intros var.
  rewrite (with_theme_lookup p (with_theme p m)), (with_theme_lookup p m).
  repeat (case_decide; [by rewrite declared_idem |]). done.
Qed.

Lemma with_theme_overwrites (p q : Palette) (m : gmap string string) :
  accepted p = true ->
  with_theme p (with_theme q m) = with_theme p m.
Proof.
  unfold accepted. intros Hp.
  apply andb_prop in Hp as [Hp H4]. apply andb_prop in Hp as [Hp H3].
  apply andb_prop in Hp as [H1 H2].
  apply map_eq. intros var.
  rewrite (with_theme_lookup p (with_theme q m)), (with_theme_lookup p m).
  repeat (case_decide; [subst var; by rewrite !declared_accepts |]).
  rewrite with_theme_lookup. by repeat (case_decide; [done |]).
Qed.

(** ** What the script does with well-formed palettes *)

Lemma applyPalette_palette (p : Palette) (w : world) :
  applyPalette (palette_value p) w =
  (Normal tt,
   mkWorld (with_theme p (root_style w)) (container w)
     (console w ++ [ConsoleLog ("Applied palette: " +:+ name p)])
     (trace w)).
Proof. reflexivity. Qed.

Lemma palette_button_palette (p : Palette) (w : world) :
  palette_button (palette_value p) w =
  (Normal tt,
   mkWorld (root_style w)
     ((fun kids : list element => kids ++ [button_of p]) <$> container w)
     (console w) (trace w)).
Proof. reflexivity. Qed.

Lemma forEach_palettes (P : list Palette) (w : world) (kids : list element) :
  container w = Some kids ->
  forEach (palette_value <$> P) palette_button w =
  (Normal tt,
   mkWorld (root_style w) (Some (kids ++ (button_of <$> P))) (console w)
     (trace w)).
Proof.
  revert w kids. induction P as [| p P IH]; intros w kids Hc.
  - destruct w as [m c lg t]. simpl in *. subst c.
    by rewrite app_nil_r.
  - cbn [fmap list_fmap forEach]. unfold bind at 1.
    rewrite palette_button_palette.
    rewrite (IH _ (kids ++ [button_of p])).
    + cbn. by rewrite <- app_assoc.
    + cbn. by rewrite Hc.
Qed.

Lemma createPaletteButtons_palettes (P : list Palette) (w : world) :
  createPaletteButtons (palettes_value P) w = (Normal tt, rendered P w).
Proof.
  unfold createPaletteButtons, rendered, palettes_value, getContainer.
  unfold bind at 1.
  destruct (container w) as [kids |] eqn:Hc.
  - rewrite bool_decide_true by done. cbn [negb].
    unfold bind at 1. cbn [set_innerHTML]. unfold bind at 1.
    rewrite (forEach_palettes P _ []); [| cbn; by rewrite Hc].
    destruct P as [| p P]; [done |].
    change (palette_value <$> p :: P)
      with (palette_value p :: (palette_value <$> P)).
    cbn [length Nat.ltb Nat.leb lookup list_lookup default id].
    by rewrite applyPalette_palette.
  - rewrite bool_decide_false by (by intros [? ?]). cbn.
    unfold console_error. by rewrite Hc.
Qed.

(** ** The presenter on well-formed palettes *)

(** C9, as the script and the host behave. For every well-formed
    palette, whatever strings its colour fields hold, [applyPalette]
    completes normally, assigns the four colour fields to the four global
    style variables and to nothing else (every other declaration of the root
    and the container are as they were), so that each variable ends as the
    host leaves it after that assignment: removed by an empty string,
    unchanged by a string the host does not accept, holding the host's form
    of the string otherwise.  When the host accepts all four colours, the
    four variables hold them in the host's form. *)
Theorem applyPalette_assigns_the_four_variables (p : Palette) (w : world) :
  let w' := exec (applyPalette (palette_value p)) w in
  outcome (applyPalette (palette_value p)) w = Normal tt /\
  active_theme w' = theme_after p (root_style w) /\
  (accepted p = true -> active_theme w' = stored_theme p) /\
  (forall var, var ∉ theme_vars -> root_style w' !! var = root_style w !! var) /\
  container w' = container w.
Proof.
  unfold exec, outcome. rewrite applyPalette_palette. cbn [fst snd].
  split; [done |]. split; [apply with_theme_vars |].
  split.
  - intros Hp. unfold active_theme. cbn [root_style].
    rewrite with_theme_vars. by apply theme_after_accepted.
  - split; [| done]. intros var Hvar. by apply with_theme_other.
Qed.

(** C3, as the script and the host behave. For every non-empty sequence
    [P] of well-formed palettes, in a document that has the container,
    [createPaletteButtons] leaves exactly [length P] children in the
    container, the [k]-th being the button made for [P[k]] and labelled with
    its name, and has applied [P[0]] when it returns, no click having
    happened: the root declarations are those that [applyPalette] on [P[0]]
    gives from the declarations before the call, and when the host accepts
    the four colours of [P[0]] the four style variables hold them in the
    host's form. *)
Theorem render_creates_controls_and_applies_first
    (P : list Palette) (w : world) (kids : list element) :
  0 < length P ->
  container w = Some kids ->
  let w' := exec (createPaletteButtons (palettes_value P)) w in
  outcome (createPaletteButtons (palettes_value P)) w = Normal tt /\
  exists controls,
    container w' = Some controls /\
    controls = button_of <$> P /\
    length controls = length P /\
    (forall k p, P !! k = Some p ->
       exists b, controls !! k = Some b /\
         tag b = "button" /\ textContent b = name p /\
         listeners b = [ApplyOnClick (palette_value p)]) /\
    (forall p0, P !! 0 = Some p0 ->
       root_style w' = root_style (exec (applyPalette (palette_value p0)) w) /\
       active_theme w' = theme_after p0 (root_style w) /\
       (accepted p0 = true -> active_theme w' = stored_theme p0)).
Proof.
  intros HP Hc. unfold exec, outcome.
  rewrite createPaletteButtons_palettes. cbn [fst snd].
  split; [done |]. unfold rendered. rewrite Hc.
  destruct P as [| p P]; [cbn in HP; lia |].
  exists (button_of <$> p :: P). cbn [container].
  split; [done |]. split; [done |]. split; [by rewrite length_fmap |].
  split.
  - intros k q Hk. exists (button_of q).
    rewrite list_lookup_fmap, Hk. done.
  - intros p0 [= <-]. rewrite applyPalette_palette.
    unfold active_theme. cbn [snd root_style].
    split; [done |]. split; [apply with_theme_vars |].
    intros Hp. rewrite with_theme_vars. by apply theme_after_accepted.
Qed.

(** C4, as the script and the host behave. After [createPaletteButtons]
    on well-formed palettes [P], the [k]-th child of the container is a
    control whose activation, in the document as rendered and in every later
    state of the document (whatever was rendered or applied in between),
    completes normally and has exactly the effect on the root declarations
    of [applyPalette] on [P[k]], the palette captured when the control was
    made: each of the four style variables ends as the host leaves it after
    the assignment of the colour of [P[k]], the other declarations are
    unchanged, and when the host accepts the four colours of [P[k]] the four
    variables hold them in the host's form, whatever they held before. *)
Theorem click_applies_captured_palette
    (P : list Palette) (k : nat) (p : Palette) (w : world)
    (kids : list element) :
  container w = Some kids ->
  P !! k = Some p ->
  let w1 := exec (createPaletteButtons (palettes_value P)) w in
  exists b,
    container w1 ≫= (fun kids => kids !! k) = Some b /\
    click_control k w1 = click b w1 /\
    forall w2,
      outcome (click b) w2 = Normal tt /\
      root_style (exec (click b) w2) =
        root_style (exec (applyPalette (palette_value p)) w2) /\
      active_theme (exec (click b) w2) = theme_after p (root_style w2) /\
      (accepted p = true ->
       active_theme (exec (click b) w2) = stored_theme p) /\
      (forall var, var ∉ theme_vars ->
         root_style (exec (click b) w2) !! var = root_style w2 !! var).
Proof.
  intros Hc Hk. cbn zeta.
  assert (Hr : exec (createPaletteButtons (palettes_value P)) w
               = rendered P w).
  { unfold exec. by rewrite createPaletteButtons_palettes. }
  rewrite Hr. clear Hr.
  assert (Hb : container (rendered P w) ≫= (fun kids => kids !! k)
               = Some (button_of p)).
  { unfold rendered. rewrite Hc. destruct P as [| p0 P]; [done |].
    cbn [container mbind option_bind]. by rewrite list_lookup_fmap, Hk. }
  exists (button_of p). split; [done |]. split.
  - unfold click_control. by rewrite Hb.
  - intros w2. unfold click, exec, outcome, active_theme.
    cbn [listeners button_of run_listeners run_listener].
    unfold bind. rewrite applyPalette_palette. cbn [fst snd ret root_style].
    split; [done |]. split; [done |]. split; [apply with_theme_vars |].
    split.
    + intros Hp. rewrite with_theme_vars. by apply theme_after_accepted.
    + intros var Hvar. by apply with_theme_other.
Qed.

(** C7. On the empty sequence [createPaletteButtons] completes normally,
    leaves the container (if the document has one) without children, and
    leaves the root declarations, hence the four style variables, as they
    were. *)
Theorem render_empty_leaves_theme (w : world) :
  let w' := exec (createPaletteButtons (palettes_value [])) w in
  outcome (createPaletteButtons (palettes_value [])) w = Normal tt /\
  container w' = (fun _ => []) <$> container w /\
  root_style w' = root_style w /\
  active_theme w' = active_theme w.
Proof.
  unfold exec, outcome. rewrite createPaletteButtons_palettes.
  cbn [fst snd]. unfold rendered, active_theme.
  destruct (container w); cbn; done.
Qed.

(** C8. For every sequence [P] of well-formed palettes, running
    [createPaletteButtons] on [P] twice in a row leaves the same children in
    the container and the same root declarations (so the same four style
    variables) as running it once. *)
Theorem render_idempotent (P : list Palette) (w : world) :
  let render := createPaletteButtons (palettes_value P) in
  let once := exec render w in
  let twice := exec (render >> render) w in
  container twice = container once /\
  root_style twice = root_style once /\
  active_theme twice = active_theme once.
Proof.
  cbn zeta. unfold exec, bind, active_theme.
  rewrite !createPaletteButtons_palettes. cbn [snd].
  unfold rendered at 1 3 5.
  destruct (container w) as [kids |] eqn:Hc;
    unfold rendered; rewrite Hc; [| done].
  destruct P as [| p P]; cbn [container root_style]; [done |].
  by rewrite with_theme_idem.
Qed.

(** ** The retry loop *)

Lemma fetches_app (t1 t2 : list event) :
  fetches (t1 ++ t2) = fetches t1 + fetches t2.
Proof.
  induction t1 as [| [res | ms] t1 IH]; cbn; [done | by rewrite IH | done].
Qed.

Lemma add_trace_nil (w : world) : add_trace w [] = w.
Proof. destruct w. unfold add_trace. cbn. by rewrite app_nil_r. Qed.

Lemma retry_loop_status_failures
    (net : nat -> fetch_outcome) (count more : nat) (i : Z)
    (response : option Response) (w : world) :
  status_failures net (fetches (trace w)) count = true ->
  retry_loop net (count + more) i response w =
  retry_loop net more (i + Z.of_nat count)
    (last_seen net (fetches (trace w)) count response)
    (add_trace w (backoff i count)).
Proof.
  revert i response w.
  induction count as [| count IH]; intros i response w Hfail.
  - cbn [plus last_seen backoff]. by rewrite Z.add_0_r, add_trace_nil.
  - cbn [status_failures] in Hfail. apply andb_prop in Hfail as [H0 Hrest].
    cbn [plus retry_loop last_seen backoff]. unfold bind at 1, fetch at 1.
    destruct (net (fetches (trace w))) as [r |]; [| done].
    cbn [fails_by_status] in H0. apply negb_true_iff in H0. rewrite H0.
    unfold bind at 1, wait at 1. cbn [trace].
    rewrite IH.
    + cbn [trace]. rewrite <- !app_assoc. cbn [app].
      rewrite !fetches_app. cbn [fetches].
      replace (fetches (trace w) + 1) with (S (fetches (trace w))) by lia.
      replace (i + 1 + Z.of_nat count)%Z with (i + Z.of_nat (S count))%Z
        by lia.
      unfold add_trace. cbn. by rewrite <- !app_assoc.
    + cbn [trace]. rewrite <- !app_assoc. cbn [app].
      rewrite !fetches_app. cbn [fetches].
      by replace (fetches (trace w) + 1) with (S (fetches (trace w))) by lia.
Qed.

(** The loop touches nothing but the trace. *)
Lemma retry_loop_frame
    (net : nat -> fetch_outcome) (remaining : nat) (i : Z)
    (response : option Response) (w : world) :
  exists t, snd (retry_loop net remaining i response w) = add_trace w t.
Proof.
  revert i response w.
  induction remaining as [| n IH]; intros i response w.
  - exists []. by rewrite add_trace_nil.
  - cbn [retry_loop]. unfold bind at 1, fetch at 1.
    destruct (net (fetches (trace w))) as [r |];
      [| by exists [EvFetch PALETTES_FILE]].
    destruct (ok r); [by exists [EvFetch PALETTES_FILE] |].
    unfold bind at 1, wait at 1.
    match goal with
    | |- context [retry_loop net n ?j ?resp ?w1] =>
        destruct (IH j resp w1) as [t Ht]
    end.
    exists ([EvFetch PALETTES_FILE; EvWait (2 ^ i * 100)] ++ t).
    rewrite Ht. unfold add_trace. cbn. by rewrite <- !app_assoc.
Qed.

(** ** Properties of the document kept by the presenter on any input

    The presenter changes the document only by writing root declarations,
    by writing to the console, and by mapping a function over the children
    of the container if there is one.  A property of the document that
    survives these three changes survives every presenter function,
    whatever value they are run on and however they complete. *)

Section Frame.
Variable I : world -> Prop.
Hypothesis I_root : forall w m,
  I w -> I (mkWorld m (container w) (console w) (trace w)).
Hypothesis I_console : forall w c,
  I w -> I (mkWorld (root_style w) (container w) c (trace w)).
Hypothesis I_children : forall w (f : list element -> list element),
  I w -> I (mkWorld (root_style w) (f <$> container w) (console w) (trace w)).

Lemma preserves_ret {A} (a : A) : preserves I (ret a).
Proof. by intros w Hw. Qed.

Lemma preserves_throw {A} (e : exn) : preserves I (@throw A e).
Proof. by intros w Hw. Qed.

Lemma preserves_lift {A} (c : completion A) : preserves I (lift c).
Proof. by intros w Hw. Qed.

Lemma preserves_bind {A B} (c : M A) (k : A -> M B) :
  preserves I c -> (forall a, preserves I (k a)) -> preserves I (bind c k).
Proof.
  intros Hc Hk w Hw. unfold bind. specialize (Hc w Hw).
  destruct (c w) as [[a | e] w']; cbn in *; [by apply Hk | done].
Qed.

Lemma preserves_setProperty (var : string) (v : value) :
  preserves I (setProperty var v).
Proof.
  intros w Hw. unfold setProperty, bind, lift.
  destruct (to_css v); cbn; [by apply I_root | done].
Qed.

Lemma preserves_console_log (s : string) : preserves I (console_log s).
Proof. intros w Hw. by apply I_console. Qed.

Lemma preserves_console_error (s : string) (d : option exn) :
  preserves I (console_error s d).
Proof. intros w Hw. by apply I_console. Qed.

Lemma preserves_getContainer : preserves I getContainer.
Proof. by intros w Hw. Qed.

Lemma preserves_set_innerHTML (nodes : list element) :
  preserves I (set_innerHTML nodes).
Proof. intros w Hw. by apply (I_children w (fun _ => nodes)). Qed.

Lemma preserves_appendChild (node : element) : preserves I (appendChild node).
Proof. intros w Hw. by apply I_children. Qed.

Create HintDb frame.
#[local] Hint Resolve preserves_ret preserves_throw preserves_lift
  preserves_setProperty preserves_console_log preserves_console_error
  preserves_getContainer preserves_set_innerHTML preserves_appendChild
  : frame.

Ltac frame :=
  repeat first
    [ solve [auto with frame]
    | apply preserves_bind; [| intros ?] ].

Lemma preserves_applyPalette (palette : value) :
  preserves I (applyPalette palette).
Proof. unfold applyPalette. frame. Qed.

Lemma preserves_palette_button (palette : value) :
  preserves I (palette_button palette).
Proof. unfold palette_button. frame. Qed.

Lemma preserves_forEach (items : list value) (cb : value -> M unit) :
  (forall v, preserves I (cb v)) -> preserves I (forEach items cb).
Proof.
  intros Hcb. induction items as [| v items IH]; cbn [forEach]; frame.
Qed.

Lemma preserves_createPaletteButtons (palettes : value) :
  preserves I (createPaletteButtons palettes).
Proof.
  unfold createPaletteButtons. apply preserves_bind; [frame |].
  intros found. destruct found; cbn [negb]; [| frame].
  apply preserves_bind; [frame |]. intros _.
  destruct palettes; try solve [frame].
  apply preserves_bind.
  - apply preserves_forEach, preserves_palette_button.
  - intros _. destruct (0 <? length items)%nat; [| frame].
    apply preserves_applyPalette.
Qed.

Lemma preserves_on_error (error : exn) : preserves I (on_error error).
Proof.
  unfold on_error. apply preserves_bind; [frame |]. intros _.
  apply preserves_bind; [frame |]. intros found. destruct found; frame.
Qed.
End Frame.

Lemma createPaletteButtons_trace (palettes : value) (w : world) :
  trace (exec (createPaletteButtons palettes) w) = trace w.
Proof.
  by apply (preserves_createPaletteButtons (fun w' => trace w' = trace w)).
Qed.

Lemma on_error_trace (error : exn) (w : world) :
  trace (exec (on_error error) w) = trace w.
Proof. by apply (preserves_on_error (fun w' => trace w' = trace w)). Qed.

Lemma createPaletteButtons_has_container (palettes : value) (w : world) :
  has_container w -> has_container (exec (createPaletteButtons palettes) w).
Proof.
  apply (preserves_createPaletteButtons has_container); try done.
  intros w' f. unfold has_container. cbn. by rewrite fmap_is_Some.
Qed.

(** The [catch] block never throws; it puts the notice in the container
    when there is one. *)
Lemma on_error_run (error : exn) (w : world) :
  on_error error w =
  (Normal tt,
   mkWorld (root_style w) ((fun _ => [ERROR_NOTICE]) <$> container w)
     (console w
      ++ [ConsoleError "Error loading or processing palettes:" (Some error)])
     (trace w)).
Proof.
  unfold on_error, bind, console_error, getContainer. cbn.
  destruct (container w) as [kids |] eqn:Hc.
  - by rewrite bool_decide_true.
  - by rewrite bool_decide_false by (by intros [? ?]).
Qed.

(** ** The loader *)

Lemma fetches_backoff (i : Z) (count : nat) : fetches (backoff i count) = count.
Proof.
  revert i. induction count as [| count IH]; intros i; cbn; [done |].
  by rewrite IH.
Qed.

Lemma load_first_ok
    (net : nat -> fetch_outcome) (w : world) (r : Response) (v : value) :
  net (fetches (trace w)) = Responds r ->
  ok r = true ->
  json r = Some v ->
  load net w = (Normal v, add_trace w [EvFetch PALETTES_FILE]).
Proof.
  intros Hnet Hok Hjson. unfold load, maxRetries. cbn [retry_loop].
  unfold bind, fetch. rewrite Hnet, Hok. cbn. rewrite Hok. cbn.
  unfold response_json. by rewrite Hjson.
Qed.

Lemma load_rejected (net : nat -> fetch_outcome) (k : nat) (w : world) :
  k < maxRetries ->
  status_failures net (fetches (trace w)) k = true ->
  net (fetches (trace w) + k) = Rejects ->
  load net w =
  (Throw TypeError, add_trace w (backoff 0 k ++ [EvFetch PALETTES_FILE])).
Proof.
  intros Hk Hfail Hnet. unfold load.
  replace maxRetries with (k + S (maxRetries - S k)) at 1 by lia.
  unfold bind at 1. rewrite retry_loop_status_failures by done.
  cbn [retry_loop]. unfold bind at 1, fetch at 1.
  cbn [add_trace trace]. rewrite fetches_app, fetches_backoff, Hnet.
  unfold add_trace. cbn. by rewrite <- app_assoc.
Qed.

Lemma load_exhausted
    (net : nat -> fetch_outcome) (w : world) (r : Response) :
  status_failures net (fetches (trace w)) maxRetries = true ->
  net (fetches (trace w) + 2) = Responds r ->
  load net w =
  (Throw (Error (failure_message r)), add_trace w (backoff 0 maxRetries)).
Proof.
  intros Hfail Hnet. unfold load.
  replace maxRetries with (maxRetries + 0) at 1 by lia.
  unfold bind at 1. rewrite retry_loop_status_failures by done.
  cbn [retry_loop ret].
  replace (fetches (trace w) + 2) with (S (S (fetches (trace w)))) in Hnet
    by lia.
  unfold maxRetries at 1. cbn [last_seen]. rewrite Hnet.
  unfold maxRetries in Hfail. cbn [status_failures] in Hfail.
  rewrite Hnet in Hfail. cbn [fails_by_status] in Hfail.
  rewrite andb_true_r in Hfail.
  apply andb_prop in Hfail as [_ Hfail]. apply andb_prop in Hfail as [_ Hfail].
  rewrite Hfail. done.
Qed.

Lemma initializeInterface_load_throws
    (net : nat -> fetch_outcome) (w w1 : world) (e : exn) :
  load net w = (Throw e, w1) ->
  initializeInterface net w = on_error e w1.
Proof.
  intros Hload. unfold initializeInterface, try_catch, bind.
  by rewrite Hload.
Qed.

Lemma waits_app (t1 t2 : list event) : waits (t1 ++ t2) = waits t1 ++ waits t2.
Proof.
  induction t1 as [| [res | ms] t1 IH]; cbn; [done | done | by rewrite IH].
Qed.

Lemma initializeInterface_trace_after_load
    (net : nat -> fetch_outcome) (w w1 : world) (c : completion value) :
  load net w = (c, w1) ->
  trace (exec (initializeInterface net) w) = trace w1.
Proof.
  intros Hload. unfold exec, initializeInterface, try_catch, bind.
  rewrite Hload. destruct c as [v | e].
  - pose proof (createPaletteButtons_trace v w1) as Ht. unfold exec in Ht.
    destruct (createPaletteButtons v w1) as [[[] | e] w2]; cbn in *;
      [done |].
    rewrite <- Ht. apply on_error_trace.
  - apply on_error_trace.
Qed.

(** C6. If the first retrieval answers with a success response whose body
    parses to [v], the statements of the loader yield [v] after that single
    retrieval, and the whole of [initializeInterface] issues exactly that one
    retrieval and performs no wait. *)
Theorem first_success_no_wait_no_retry
    (net : nat -> fetch_outcome) (w : world) (r : Response) (v : value) :
  net (fetches (trace w)) = Responds r ->
  ok r = true ->
  json r = Some v ->
  load net w = (Normal v, add_trace w [EvFetch PALETTES_FILE]) /\
  let w' := exec (initializeInterface net) w in
  trace w' = trace w ++ [EvFetch PALETTES_FILE] /\
  fetches (trace w') = S (fetches (trace w)) /\
  waits (trace w') = waits (trace w).
Proof.
  intros Hnet Hok Hjson.
  pose proof (load_first_ok net w r v Hnet Hok Hjson) as Hload.
  split; [done |]. cbn zeta.
  rewrite (initializeInterface_trace_after_load _ _ _ _ Hload).
  cbn [add_trace trace]. rewrite fetches_app, waits_app. cbn.
  split; [done |]. split; [lia | by rewrite app_nil_r].
Qed.

(** C2. When the three retrievals all answer with a non-success status,
    [initializeInterface] issues exactly three retrievals and waits three
    times: 100 after the first, 200 after the second, and 400 after the
    third, before it reports the failure. *)
Theorem status_failures_wait_after_each_attempt
    (net : nat -> fetch_outcome) (w : world) :
  status_failures net (fetches (trace w)) maxRetries = true ->
  let w' := exec (initializeInterface net) w in
  trace w' =
    trace w ++ [EvFetch PALETTES_FILE; EvWait 100; EvFetch PALETTES_FILE;
                EvWait 200; EvFetch PALETTES_FILE; EvWait 400] /\
  fetches (trace w') = fetches (trace w) + 3 /\
  waits (trace w') = waits (trace w) ++ [100; 200; 400]%Z.
Proof.
  intros Hfail. cbn zeta.
  assert (exists r, net (fetches (trace w) + 2) = Responds r) as [r Hr].
  { unfold maxRetries in Hfail. cbn [status_failures] in Hfail.
    replace (fetches (trace w) + 2) with (S (S (fetches (trace w)))) by lia.
    destruct (net (S (S (fetches (trace w))))) as [r |]; [by exists r |].
    cbn in Hfail. by rewrite !andb_false_r in Hfail. }
  pose proof (load_exhausted net w r Hfail Hr) as Hload.
  rewrite (initializeInterface_trace_after_load _ _ _ _ Hload).
  cbn [add_trace trace]. rewrite fetches_app, waits_app.
  split; [done |]. split; done.
Qed.


(** C1. What the script does with a rejected retrieval. A retrieval that
    is rejected is not retried: if the retrievals before it (fewer than three) failed by
    status, the rejection ends the loop with neither a wait nor a further
    retrieval after it, the loader throws, and [initializeInterface]
    completes normally with the error notice as the only content of the
    container (when there is one) and the root declarations untouched. *)
Theorem rejected_retrieval_is_not_retried
    (net : nat -> fetch_outcome) (k : nat) (w : world) :
  k < maxRetries ->
  status_failures net (fetches (trace w)) k = true ->
  net (fetches (trace w) + k) = Rejects ->
  outcome (load net) w = Throw TypeError /\
  let w' := exec (initializeInterface net) w in
  trace w' = trace w ++ backoff 0 k ++ [EvFetch PALETTES_FILE] /\
  fetches (trace w') = fetches (trace w) + k + 1 /\
  outcome (initializeInterface net) w = Normal tt /\
  container w' = (fun _ => [ERROR_NOTICE]) <$> container w /\
  root_style w' = root_style w.
Proof.
  intros Hk Hfail Hnet.
  pose proof (load_rejected net k w Hk Hfail Hnet) as Hload.
  unfold outcome, exec. rewrite Hload.
  rewrite (initializeInterface_load_throws _ _ _ _ Hload), on_error_run.
  cbn. rewrite !fetches_app, fetches_backoff. cbn.
  repeat split; try done. lia.
Qed.

Lemma load_after_success
    (net : nat -> fetch_outcome) (w w1 : world) (r : Response) :
  retry_loop net maxRetries 0 None w = (Normal (Some r), w1) ->
  ok r = true ->
  load net w = response_json r w1.
Proof.
  intros Hloop Hok. unfold load. unfold bind at 1. rewrite Hloop.
  unfold bind. by rewrite Hok.
Qed.

Lemma initializeInterface_body_throws
    (net : nat -> fetch_outcome) (w w2 : world) (e : exn) :
  (let* palettes := load net in createPaletteButtons palettes) w
    = (Throw e, w2) ->
  initializeInterface net w = on_error e w2.
Proof.
  intros Hbody. unfold initializeInterface, try_catch. by rewrite Hbody.
Qed.

Lemma parse_and_render_has_container (r : Response) (w : world) :
  has_container w ->
  has_container
    (exec (let* palettes := response_json r in createPaletteButtons palettes)
       w).
Proof.
  intros Hw. unfold exec, bind, response_json.
  destruct (json r) as [v |]; cbn; [| done].
  by apply createPaletteButtons_has_container.
Qed.

(** C10. In a document that has the container, when the retry loop ends
    with a success response and what follows throws (the parse of the body,
    or [createPaletteButtons] on the parsed value, be it while the controls
    are created or while the first palette is applied), the [catch] block
    runs: [initializeInterface] completes normally, the exception is the
    last entry of the console, and the container holds the error notice and
    nothing else. *)
Theorem failure_after_successful_fetch_shows_notice
    (net : nat -> fetch_outcome) (w : world) (kids : list element)
    (r : Response) (e : exn) :
  container w = Some kids ->
  outcome (retry_loop net maxRetries 0 None) w = Normal (Some r) ->
  ok r = true ->
  outcome (let* palettes := response_json r in createPaletteButtons palettes)
    (exec (retry_loop net maxRetries 0 None) w) = Throw e ->
  let w' := exec (initializeInterface net) w in
  outcome (initializeInterface net) w = Normal tt /\
  container w' = Some [ERROR_NOTICE] /\
  last (console w') =
    Some (ConsoleError "Error loading or processing palettes:" (Some e)).
Proof.
  intros Hc Hloop Hok Hthrow. cbn zeta.
  destruct (retry_loop_frame net maxRetries 0 None w) as [t Ht].
  unfold outcome, exec in Hloop, Hthrow.
  destruct (retry_loop net maxRetries 0 None w) as [c w1] eqn:Hrun.
  cbn [fst snd] in Hloop, Hthrow, Ht. subst c w1.
  pose proof (load_after_success net w _ r Hrun Hok) as Hload.
  assert (has_container (add_trace w t)) as Hw1 by (by exists kids).
  apply (parse_and_render_has_container r) in Hw1 as [kids' Hkids].
  unfold exec in Hkids.
  destruct ((let* palettes := response_json r in createPaletteButtons palettes)
              (add_trace w t)) as [c2 w2] eqn:Hbody.
  cbn [fst snd] in Hthrow, Hkids. subst c2.
  assert (Hinit : initializeInterface net w = on_error e w2).
  { apply initializeInterface_body_throws. unfold bind at 1.
    rewrite Hload. exact Hbody. }
  unfold outcome, exec. rewrite Hinit, on_error_run.
  cbn [fst snd container console]. rewrite Hkids, last_snoc. done.
Qed.

(** ** The loader on an arbitrary network *)

Lemma leading_failures_le (net : nat -> fetch_outcome) (from fuel : nat) :
  leading_failures net from fuel <= fuel.
Proof.
  revert from. induction fuel as [| fuel IH]; intros from; cbn; [done |].
  destruct (fails_by_status (net from)); [| lia].
  specialize (IH (S from)). lia.
Qed.

Lemma leading_failures_status (net : nat -> fetch_outcome) (from fuel : nat) :
  status_failures net from (leading_failures net from fuel) = true.
Proof.
  revert from. induction fuel as [| fuel IH]; intros from; cbn; [done |].
  destruct (fails_by_status (net from)) eqn:Hf; [| done].
  cbn. by rewrite Hf, IH.
Qed.

Lemma leading_failures_stop (net : nat -> fetch_outcome) (from fuel : nat) :
  leading_failures net from fuel < fuel ->
  fails_by_status (net (from + leading_failures net from fuel)) = false.
Proof.
  revert from. induction fuel as [| fuel IH]; intros from; cbn; [lia |].
  destruct (fails_by_status (net from)) eqn:Hf.
  - intros Hlt. rewrite Nat.add_succ_r. apply (IH (S from)). lia.
  - intros _. by rewrite Nat.add_0_r.
Qed.

Lemma status_failures_last
    (net : nat -> fetch_outcome) (from : nat) :
  status_failures net from maxRetries = true ->
  exists r, net (from + 2) = Responds r /\ ok r = false.
Proof.
  unfold maxRetries. cbn [status_failures]. intros Hfail.
  replace (from + 2) with (S (S from)) by lia.
  destruct (net (S (S from))) as [r |].
  - exists r. split; [done |]. cbn in Hfail.
    rewrite andb_true_r in Hfail.
    apply andb_prop in Hfail as [_ Hfail].
    apply andb_prop in Hfail as [_ Hfail]. by apply negb_true_iff.
  - cbn in Hfail. by rewrite !andb_false_r in Hfail.
Qed.

Lemma load_ok_after_failures
    (net : nat -> fetch_outcome) (k : nat) (w : world) (r : Response) :
  k < maxRetries ->
  status_failures net (fetches (trace w)) k = true ->
  net (fetches (trace w) + k) = Responds r ->
  ok r = true ->
  load net w =
  (match json r with
   | Some v => Normal v
   | None => Throw SyntaxError
   end,
   add_trace w (backoff 0 k ++ [EvFetch PALETTES_FILE])).
Proof.
  intros Hk Hfail Hnet Hok. unfold load.
  replace maxRetries with (k + S (maxRetries - S k)) at 1 by lia.
  unfold bind at 1. rewrite retry_loop_status_failures by done.
  cbn [retry_loop]. unfold bind at 1, fetch at 1.
  cbn [add_trace trace]. rewrite fetches_app, fetches_backoff, Hnet, Hok.
  cbn [ret]. unfold bind. rewrite Hok. cbn [negb ret].
  unfold response_json, add_trace. cbn [root_style container console trace].
  rewrite <- app_assoc. by destruct (json r).
Qed.

Lemma load_run (net : nat -> fetch_outcome) (w : world) :
  load net w =
  (load_result net (fetches (trace w)),
   add_trace w (load_events net (fetches (trace w)))).
Proof.
  unfold load_result, load_events.
  pose proof (leading_failures_le net (fetches (trace w)) maxRetries) as Hle.
  pose proof (leading_failures_status net (fetches (trace w)) maxRetries)
    as Hst.
  pose proof (leading_failures_stop net (fetches (trace w)) maxRetries)
    as Hstop.
  set (k := leading_failures net (fetches (trace w)) maxRetries) in *.
  destruct (k <? maxRetries)%nat eqn:Hlt.
  - apply Nat.ltb_lt in Hlt. specialize (Hstop Hlt).
    destruct (net (fetches (trace w) + k)) as [r |] eqn:Hnet.
    + cbn in Hstop. apply negb_false_iff in Hstop.
      by apply load_ok_after_failures.
    + by apply load_rejected.
  - apply Nat.ltb_ge in Hlt. assert (k = maxRetries) as Hk by lia.
    rewrite Hk in Hst |- *.
    destruct (status_failures_last net _ Hst) as (r & Hr & _).
    rewrite Hr, app_nil_r. by apply load_exhausted.
Qed.

Lemma waits_backoff (k : nat) :
  k <= maxRetries -> waits (backoff 0 k) = take k [100; 200; 400]%Z.
Proof.
  unfold maxRetries. intros Hk.
  destruct k as [| [| [| [| k]]]]; [done | done | done | done | lia].
Qed.

Lemma createPaletteButtons_with_children
    (v : value) (w : world) (kids : list element) :
  createPaletteButtons v (with_children w kids) =
  createPaletteButtons v (with_children w []).
Proof.
  unfold createPaletteButtons, getContainer, with_children.
  unfold bind at 1 3. cbn [container].
  rewrite !bool_decide_true by done. cbn [negb].
  unfold bind at 1 2. reflexivity.
Qed.

(** ** Properties of the document kept by the whole script

    The script writes root declarations only through [applyPalette], and
    only the four theme variables.  A property of the document that
    survives a write to a theme variable, a write to the console, a change
    of the container's children and an extension of the trace survives
    every function of the script. *)

Lemma preserves_try_catch (I : world -> Prop)
    (body : M unit) (handler : exn -> M unit) :
  preserves I body -> (forall e, preserves I (handler e)) ->
  preserves I (try_catch body handler).
Proof.
  intros Hb Hh w Hw. unfold try_catch. specialize (Hb w Hw).
  destruct (body w) as [[a | e] w']; cbn in *; [done | by apply Hh].
Qed.

Section ThemeFrame.
Variable I : world -> Prop.
Hypothesis I_theme : forall w var s,
  var ∈ theme_vars ->
  I w ->
  I (mkWorld (assign var s (root_style w)) (container w) (console w)
       (trace w)).
Hypothesis I_console : forall w c,
  I w -> I (mkWorld (root_style w) (container w) c (trace w)).

Lemma theme_setProperty (var : string) (v : value) :
  var ∈ theme_vars -> preserves I (setProperty var v).
Proof.
  intros Hvar w Hw. unfold setProperty, bind, lift.
  destruct (to_css v); cbn; [by apply I_theme | done].
Qed.

Lemma theme_applyPalette (palette : value) :
  preserves I (applyPalette palette).
Proof.
  unfold applyPalette.
  repeat first
    [ apply preserves_lift
    | apply theme_setProperty; unfold theme_vars; set_solver
    | apply (preserves_console_log I I_console)
    | apply preserves_bind; [| intros ?] ].
Qed.

Lemma theme_run_listeners (ls : list listener) :
  preserves I (run_listeners ls).
Proof.
  induction ls as [| [palette] ls IH]; cbn [run_listeners run_listener].
  - apply preserves_ret.
  - apply preserves_bind; [apply theme_applyPalette | by intros _].
Qed.

Hypothesis I_children : forall w (f : list element -> list element),
  I w -> I (mkWorld (root_style w) (f <$> container w) (console w) (trace w)).

Lemma theme_createPaletteButtons (palettes : value) :
  preserves I (createPaletteButtons palettes).
Proof.
  unfold createPaletteButtons.
  apply preserves_bind; [apply preserves_getContainer |].
  intros found. destruct found; cbn [negb];
    [| by apply preserves_console_error].
  apply preserves_bind; [by apply preserves_set_innerHTML |]. intros _.
  destruct palettes; try apply preserves_throw.
  apply preserves_bind.
  - apply preserves_forEach. intros v. by apply preserves_palette_button.
  - intros _. destruct (0 <? length items)%nat;
      [apply theme_applyPalette | apply preserves_ret].
Qed.

Hypothesis I_trace : forall w t, I w -> I (add_trace w t).

Lemma theme_load (net : nat -> fetch_outcome) : preserves I (load net).
Proof. intros w Hw. rewrite load_run. by apply I_trace. Qed.

Lemma theme_initializeInterface (net : nat -> fetch_outcome) :
  preserves I (initializeInterface net).
Proof.
  unfold initializeInterface. apply preserves_try_catch.
  - apply preserves_bind; [apply theme_load |].
    intros v. apply theme_createPaletteButtons.
  - intros e. by apply preserves_on_error.
Qed.
End ThemeFrame.

Lemma other_declaration_kept (var : string) (m0 : gmap string string)
    (w : world) (var' s : string) :
  var ∉ theme_vars -> var' ∈ theme_vars ->
  root_style w !! var = m0 !! var ->
  assign var' s (root_style w) !! var = m0 !! var.
Proof.
  intros Hvar Hvar' Hw. rewrite lookup_assign_ne; [done |].
  intros ->. done.
Qed.

Lemma initializeInterface_run (net : nat -> fetch_outcome) (w : world) :
  initializeInterface net w =
  match load_result net (fetches (trace w)) with
  | Throw e => on_error e (add_trace w (load_events net (fetches (trace w))))
  | Normal v =>
      match createPaletteButtons v
              (add_trace w (load_events net (fetches (trace w)))) with
      | (Normal a, w2) => (Normal a, w2)
      | (Throw e, w2) => on_error e w2
      end
  end.
Proof.
  unfold initializeInterface, try_catch. unfold bind at 1.
  rewrite load_run. by destruct (load_result net (fetches (trace w))).
Qed.

(** ** The script on arbitrary networks and documents *)

(** X1. Whatever the network answers and whatever the document holds,
    [initializeInterface] completes normally: no exception leaves it. *)
Theorem initializeInterface_never_throws
    (net : nat -> fetch_outcome) (w : world) :
  outcome (initializeInterface net) w = Normal tt.
Proof.
  unfold outcome, initializeInterface, try_catch.
  destruct ((let* palettes := load net in createPaletteButtons palettes) w)
    as [[[] | e] w1]; [done |].
  by rewrite on_error_run.
Qed.

(** X2. On every network, the retrievals and waits of a run are [k]
    rounds of a retrieval followed by a wait, [k] being the number of
    leading status failures among the first three answers, followed by one
    more retrieval when [k] is less than three.  So a run issues between one
    and three retrievals, and its waits are the first [k] of 100, 200,
    400. *)
Theorem initializeInterface_events
    (net : nat -> fetch_outcome) (w : world) :
  let k := leading_failures net (fetches (trace w)) maxRetries in
  let w' := exec (initializeInterface net) w in
  trace w' =
    trace w ++ backoff 0 k
    ++ (if (k <? maxRetries)%nat then [EvFetch PALETTES_FILE] else []) /\
  fetches (trace w') = fetches (trace w) + Nat.min (S k) maxRetries /\
  1 <= Nat.min (S k) maxRetries <= 3 /\
  waits (trace w') = waits (trace w) ++ take k [100; 200; 400]%Z.
Proof.
  cbn zeta.
  rewrite (initializeInterface_trace_after_load _ _ _ _ (load_run net w)).
  unfold load_events. cbn [add_trace trace].
  pose proof (leading_failures_le net (fetches (trace w)) maxRetries) as Hle.
  remember (leading_failures net (fetches (trace w)) maxRetries) as k
    eqn:Hk. clear Hk.
  split; [done |].
  rewrite !fetches_app, !waits_app, fetches_backoff, waits_backoff by done.
  unfold maxRetries in *.
  destruct (k <? 3)%nat eqn:Hlt;
    [apply Nat.ltb_lt in Hlt | apply Nat.ltb_ge in Hlt];
    cbn [fetches waits]; rewrite app_nil_r; repeat split; lia.
Qed.

(** X3. A success response at attempt [k + 1], after [k] (at most two)
    status failures, ends the loop: the loader statements yield the parsed
    body, or throw a syntax error when the body is not valid JSON, after
    exactly those [k] rounds and that retrieval; an invalid body is not
    retried. *)
Theorem success_ends_the_loop
    (net : nat -> fetch_outcome) (k : nat) (w : world) (r : Response) :
  k < maxRetries ->
  status_failures net (fetches (trace w)) k = true ->
  net (fetches (trace w) + k) = Responds r ->
  ok r = true ->
  load net w =
  (match json r with
   | Some v => Normal v
   | None => Throw SyntaxError
   end,
   add_trace w (backoff 0 k ++ [EvFetch PALETTES_FILE])).
Proof. apply load_ok_after_failures. Qed.

(** X4. Status failures are recovered: when the first success response
    comes at attempt [k + 1] and carries well-formed palettes [P], the run
    ends with the document that rendering [P] gives, the trace holding the
    [k] failed rounds and the last retrieval. *)
Theorem recovery_renders_the_palettes
    (net : nat -> fetch_outcome) (k : nat) (w : world) (r : Response)
    (P : list Palette) :
  k < maxRetries ->
  status_failures net (fetches (trace w)) k = true ->
  net (fetches (trace w) + k) = Responds r ->
  ok r = true ->
  json r = Some (palettes_value P) ->
  initializeInterface net w =
  (Normal tt,
   rendered P (add_trace w (backoff 0 k ++ [EvFetch PALETTES_FILE]))).
Proof.
  intros Hk Hfail Hnet Hok Hjson.
  pose proof (load_ok_after_failures net k w r Hk Hfail Hnet Hok) as Hload.
  rewrite Hjson in Hload.
  unfold initializeInterface, try_catch. unfold bind at 1.
  by rewrite Hload, createPaletteButtons_palettes.
Qed.

(** X5. In a document without the container, [createPaletteButtons] on
    any value, even one it would throw on otherwise, only reports the
    absence on the console and completes normally; and a whole run, on any
    network, leaves the root declarations as they were (no theme is applied)
    and the container absent. *)
Theorem missing_container_is_reported_only (w : world) :
  container w = None ->
  (forall v,
     createPaletteButtons v w =
     (Normal tt,
      mkWorld (root_style w) None
        (console w ++ [ConsoleError CONTAINER_MISSING None]) (trace w))) /\
  (forall net,
     root_style (exec (initializeInterface net) w) = root_style w /\
     container (exec (initializeInterface net) w) = None).
Proof.
  intros Hc.
  assert (Hrender : forall v w0, container w0 = None ->
            createPaletteButtons v w0 =
            (Normal tt,
             mkWorld (root_style w0) None
               (console w0 ++ [ConsoleError CONTAINER_MISSING None])
               (trace w0))).
  { intros v w0 H0. unfold createPaletteButtons, getContainer.
    unfold bind at 1. rewrite H0.
    rewrite bool_decide_false by (by intros [? ?]). cbn [negb].
    unfold console_error. by rewrite H0. }
  split; [intros v; by apply Hrender |].
  intros net. unfold exec. rewrite initializeInterface_run.
  destruct (load_result net (fetches (trace w))) as [v | e].
  - rewrite Hrender by done. done.
  - rewrite on_error_run. cbn. by rewrite Hc.
Qed.

(** X6. On every network and every document, a run changes no root
    declaration other than the four theme variables. *)
Theorem initializeInterface_keeps_other_declarations
    (net : nat -> fetch_outcome) (w : world) (var : string) :
  var ∉ theme_vars ->
  root_style (exec (initializeInterface net) w) !! var = root_style w !! var.
Proof.
  intros Hvar.
  apply (theme_initializeInterface
           (fun w' => root_style w' !! var = root_style w !! var));
    try done.
  intros w' var' s Hvar' Hw'. cbn.
  by apply other_declaration_kept.
Qed.

(** X7. A click on any element, whatever values its listeners captured and
    however the click completes, leaves the container and the trace as they
    were (it adds and removes no control, issues no retrieval and no wait)
    and changes no root declaration other than the four theme variables. *)
Theorem click_changes_the_theme_only (e : element) (w : world) :
  let w' := exec (click e) w in
  container w' = container w /\
  trace w' = trace w /\
  (forall var, var ∉ theme_vars ->
     root_style w' !! var = root_style w !! var).
Proof.
  cbn zeta. unfold exec, click.
  pose proof (theme_run_listeners
                (fun w' => container w' = container w /\ trace w' = trace w /\
                           forall var, var ∉ theme_vars ->
                             root_style w' !! var = root_style w !! var))
    as Hframe.
  apply Hframe; [| done | done].
  intros w0 var' s Hvar' (Hc & Ht & Hs). cbn.
  split; [done |]. split; [done |].
  intros var Hvar. apply other_declaration_kept; [done | done |].
  by apply Hs.
Qed.

(** X10. What the container held before a run has no influence on it: on
    every network, runs from two documents that differ only in the children
    of the container complete alike and end in the same document.  The same
    holds for [createPaletteButtons] on any value. *)
Theorem prior_children_are_irrelevant
    (net : nat -> fetch_outcome) (w : world) (kids kids' : list element) :
  initializeInterface net (with_children w kids) =
  initializeInterface net (with_children w kids') /\
  forall v,
    createPaletteButtons v (with_children w kids) =
    createPaletteButtons v (with_children w kids').
Proof.
  assert (Hrender : forall v w0,
            createPaletteButtons v (with_children w0 kids) =
            createPaletteButtons v (with_children w0 kids')).
  { intros v w0. rewrite (createPaletteButtons_with_children v w0 kids).
    by rewrite (createPaletteButtons_with_children v w0 kids'). }
  split; [| intros v; apply Hrender].
  rewrite !initializeInterface_run. cbn [with_children trace].
  destruct (load_result net (fetches (trace w))) as [v | e].
  - change (add_trace (with_children w kids)
              (load_events net (fetches (trace w))))
      with (with_children
              (add_trace w (load_events net (fetches (trace w)))) kids).
    change (add_trace (with_children w kids')
              (load_events net (fetches (trace w))))
      with (with_children
              (add_trace w (load_events net (fetches (trace w)))) kids').
    by rewrite Hrender.
  - by rewrite !on_error_run.
Qed.

(** ** The presenter on arbitrary parsed documents *)

Lemma palette_button_build (v : value) (w : world) :
  palette_button v w =
  match build_button v with
  | Normal b => appendChild b w
  | Throw e => (Throw e, w)
  end.
Proof.
  unfold palette_button, build_button, bind, lift.
  destruct (Get v "name") as [n | e]; [| done].
  destruct (to_text n) as [label | e]; [| done].
  destruct (Get v "primary") as [p | e]; [| done].
  by destruct (to_css p) as [color | e].
Qed.

Lemma button_ok_build (v : value) :
  button_ok v = match build_button v with
                | Normal _ => true
                | Throw _ => false
                end.
Proof.
  unfold button_ok, build_button, converts.
  destruct (Get v "name") as [n | e]; [| done].
  destruct (to_text n) as [label | e]; [| done].
  destruct (Get v "primary") as [p | e]; [| done].
  by destruct (to_css p) as [color | e].
Qed.

Lemma forEach_build_ok (items : list value) (w : world)
    (kids : list element) :
  forallb button_ok items = true ->
  exists bs,
    Forall2 (fun v b => build_button v = Normal b) items bs /\
    forEach items palette_button (with_children w kids) =
    (Normal tt, with_children w (kids ++ bs)).
Proof.
  revert kids. induction items as [| v items IH]; intros kids Hok.
  - exists []. split; [constructor |]. cbn. by rewrite app_nil_r.
  - cbn [forallb] in Hok. apply andb_prop in Hok as [Hv Hrest].
    rewrite button_ok_build in Hv.
    destruct (build_button v) as [b |] eqn:Hb; [| done].
    destruct (IH (kids ++ [b]) Hrest) as (bs & Hbs & Hrun).
    exists (b :: bs). split; [by constructor |].
    cbn [forEach]. unfold bind at 1.
    rewrite palette_button_build, Hb.
    unfold appendChild, with_children. cbn.
    unfold with_children in Hrun. cbn in Hrun. rewrite Hrun.
    by rewrite <- app_assoc.
Qed.

Lemma forEach_build_fail (items : list value) (w : world) :
  forallb button_ok items = false ->
  exists e w', forEach items palette_button w = (Throw e, w').
Proof.
  revert w. induction items as [| v items IH]; intros w Hbad; [done |].
  cbn [forallb] in Hbad. cbn [forEach]. unfold bind at 1.
  rewrite palette_button_build.
  pose proof (button_ok_build v) as Hv.
  destruct (build_button v) as [b | e]; [| by exists e, w].
  rewrite Hv in Hbad. cbn in Hbad.
  destruct (IH (exec (appendChild b) w) Hbad) as (e & w' & Hrun).
  exists e, w'. exact Hrun.
Qed.

Lemma apply_ok_run (v : value) (w : world) :
  apply_ok v = match fst (applyPalette v w) with
               | Normal _ => true
               | Throw _ => false
               end.
Proof.
  unfold applyPalette, apply_ok, converts, setProperty, console_log, bind,
    lift.
  destruct (Get v "primary") as [a | e]; [| done].
  destruct (to_css a) as [sa | e]; [| done].
  destruct (Get v "secondary") as [b | e]; [| done].
  destruct (to_css b) as [sb | e]; [| done].
  destruct (Get v "text") as [c | e]; [| done].
  destruct (to_css c) as [sc | e]; [| done].
  destruct (Get v "background") as [d | e]; [| done].
  destruct (to_css d) as [sd | e]; [| done].
  destruct (Get v "name") as [n | e]; [| done].
  by destruct (ToString n) as [sn | e].
Qed.

Lemma applyPalette_container (v : value) (w : world) :
  container (snd (applyPalette v w)) = container w.
Proof.
  by apply (theme_applyPalette (fun w' => container w' = container w)).
Qed.

Lemma button_style_lookups (color : string) :
  button_style color !! "backgroundColor"
    = declared "backgroundColor" "white" None /\
  button_style color !! "color" = declared "color" color None /\
  button_style color !! "borderColor" = declared "borderColor" color None /\
  button_style color !! "borderWidth" = declared "borderWidth" "2px" None.
Proof.
  unfold button_style. split; [| split; [| split]].
  - rewrite !(lookup_assign_ne _ _ _ "backgroundColor") by done.
    by rewrite lookup_assign_eq, lookup_empty.
  - rewrite !(lookup_assign_ne _ _ _ "color") by done.
    rewrite lookup_assign_eq, lookup_assign_ne by done.
    by rewrite lookup_empty.
  - rewrite (lookup_assign_ne _ _ _ "borderColor") by done.
    rewrite lookup_assign_eq, !lookup_assign_ne by done.
    by rewrite lookup_empty.
  - rewrite lookup_assign_eq, !lookup_assign_ne by done.
    by rewrite lookup_empty.
Qed.

Lemma build_button_facts (v : value) (b : element) :
  build_button v = Normal b ->
  tag b = "button" /\
  className b = BUTTON_CLASS /\
  listeners b = [ApplyOnClick v] /\
  (exists n, Get v "name" = Normal n /\ to_text n = Normal (textContent b)) /\
  (exists p color,
     Get v "primary" = Normal p /\ to_css p = Normal color /\
     style b = button_style color /\
     style b !! "backgroundColor" = declared "backgroundColor" "white" None /\
     style b !! "color" = declared "color" color None /\
     style b !! "borderColor" = declared "borderColor" color None /\
     style b !! "borderWidth" = declared "borderWidth" "2px" None).
Proof.
  unfold build_button.
  destruct (Get v "name") as [n | e]; [| done].
  destruct (to_text n) as [label | e] eqn:Hlabel; [| done].
  destruct (Get v "primary") as [p | e]; [| done].
  destruct (to_css p) as [color | e] eqn:Hcolor; [| done].
  intros Hb. injection Hb as <-.
  split; [reflexivity |]. split; [reflexivity |]. split; [reflexivity |].
  split; [exists n; split; [reflexivity | exact Hlabel] |].
  exists p, color.
  split; [reflexivity |]. split; [exact Hcolor |]. split; [reflexivity |].
  exact (button_style_lookups color).
Qed.

Lemma createPaletteButtons_array_ok
    (items : list value) (w : world) (kids : list element) :
  container w = Some kids ->
  forallb button_ok items = true ->
  exists bs,
    Forall2 (fun v b => build_button v = Normal b) items bs /\
    createPaletteButtons (VArr items) w =
    (if (0 <? length items)%nat
     then applyPalette (default VUndef (items !! 0))
     else ret tt) (with_children w bs).
Proof.
  intros Hc Hok.
  destruct (forEach_build_ok items w [] Hok) as (bs & Hbs & Hrun).
  exists bs. split; [done |].
  unfold createPaletteButtons, getContainer. unfold bind at 1.
  rewrite Hc, bool_decide_true by done. cbn [negb].
  unfold bind at 1. unfold set_innerHTML. rewrite Hc. cbn [fmap option_fmap option_map].
  unfold bind at 1. unfold with_children in Hrun. by rewrite Hrun.
Qed.

Lemma createPaletteButtons_array_fail
    (items : list value) (w : world) (kids : list element) :
  container w = Some kids ->
  forallb button_ok items = false ->
  exists e w', createPaletteButtons (VArr items) w = (Throw e, w').
Proof.
  intros Hc Hbad.
  unfold createPaletteButtons, getContainer. unfold bind at 1.
  rewrite Hc, bool_decide_true by done. cbn [negb].
  unfold bind at 1. unfold set_innerHTML.
  unfold bind at 1.
  match goal with
  | |- context [forEach items palette_button ?w1] =>
      destruct (forEach_build_fail items w1 Hbad) as (e & w' & Hrun)
  end.
  exists e, w'. by rewrite Hrun.
Qed.

Lemma createPaletteButtons_outcome
    (v : value) (w : world) (kids : list element) :
  container w = Some kids ->
  outcome (createPaletteButtons v) w = Normal tt <-> presentable v = true.
Proof.
  intros Hc. unfold outcome.
  destruct v as [| | b | n | s | items | props];
    try (unfold createPaletteButtons, getContainer; unfold bind at 1;
         rewrite Hc, bool_decide_true by done; cbn; done).
  cbn [presentable].
  destruct (forallb button_ok items) eqn:Hok.
  - destruct (createPaletteButtons_array_ok items w kids Hc Hok)
      as (bs & _ & ->).
    destruct items as [| first rest]; [done |].
    cbn [length Nat.ltb Nat.leb lookup list_lookup default id andb].
    rewrite (apply_ok_run first (with_children w bs)).
    destruct (applyPalette first (with_children w bs)) as [[[] | e] w2];
      cbn; done.
  - destruct (createPaletteButtons_array_fail items w kids Hc Hok)
      as (e & w' & ->).
    cbn. done.
Qed.

Lemma click_control_buttons
    (P : list Palette) (k : nat) (p : Palette) (w : world) :
  container w = Some (button_of <$> P) ->
  P !! k = Some p ->
  click_control k w =
  (Normal tt,
   mkWorld (with_theme p (root_style w)) (container w)
     (console w ++ [ConsoleLog ("Applied palette: " +:+ name p)])
     (trace w)).
Proof.
  intros Hc Hk. unfold click_control. rewrite Hc.
  cbn [mbind option_bind]. rewrite list_lookup_fmap, Hk.
  cbn [fmap option_fmap option_map]. unfold click.
  cbn [listeners button_of run_listeners run_listener]. unfold bind.
  rewrite applyPalette_palette. cbn [ret]. by rewrite Hc.
Qed.

(** X8. In a document that has the container, [createPaletteButtons]
    completes normally exactly on the arrays whose entries all pass the
    reads and conversions of the callback ([name] and [primary]) and whose
    first entry, if any, passes those of [applyPalette] (all five fields);
    on every other value it throws.  Nothing else about an entry is
    checked. *)
Theorem presenter_completes_exactly_on_presentable
    (v : value) (w : world) (kids : list element) :
  container w = Some kids ->
  outcome (createPaletteButtons v) w = Normal tt <-> presentable v = true.
Proof. apply createPaletteButtons_outcome. Qed.

(** X9. Whenever [createPaletteButtons] completes normally on an array,
    well-formed or not, the container holds one control per entry, in
    order; the control of an entry is a button of the fixed class, labelled
    with the text conversion of the entry's [name], carrying exactly one
    listener, which captured that entry, and styled by four assignments to a
    fresh inline style: [white] to the background colour, one and the same
    conversion of the entry's [primary] to the colour and to the border
    colour, [2px] to the border width, each of the four properties being
    declared as the host leaves it after its assignment (in the host's form
    if the host accepts the string, not at all otherwise). *)
Theorem every_entry_gets_its_control
    (items : list value) (w : world) (kids : list element) :
  container w = Some kids ->
  outcome (createPaletteButtons (VArr items)) w = Normal tt ->
  exists bs,
    container (exec (createPaletteButtons (VArr items)) w) = Some bs /\
    length bs = length items /\
    forall k v b,
      items !! k = Some v -> bs !! k = Some b ->
      tag b = "button" /\
      className b = BUTTON_CLASS /\
      listeners b = [ApplyOnClick v] /\
      (exists n,
         Get v "name" = Normal n /\ to_text n = Normal (textContent b)) /\
      (exists p color,
         Get v "primary" = Normal p /\ to_css p = Normal color /\
         style b = button_style color /\
         style b !! "backgroundColor"
           = declared "backgroundColor" "white" None /\
         style b !! "color" = declared "color" color None /\
         style b !! "borderColor" = declared "borderColor" color None /\
         style b !! "borderWidth" = declared "borderWidth" "2px" None).
Proof.
  intros Hc Hrun.
  apply (createPaletteButtons_outcome _ _ kids Hc) in Hrun.
  cbn [presentable] in Hrun. apply andb_prop in Hrun as [Hok _].
  destruct (createPaletteButtons_array_ok items w kids Hc Hok)
    as (bs & Hbs & Heq).
  exists bs. split; [| split].
  - unfold exec. rewrite Heq.
    destruct (0 <? length items)%nat; [| done].
    by rewrite applyPalette_container.
  - symmetry. by eapply Forall2_length.
  - intros k v b Hv Hb. apply build_button_facts.
    exact (Forall2_lookup_lr _ items bs k v b Hbs Hv Hb).
Qed.

(** X11. In a document that has the container, a run ends with the error
    notice as the only content of the container exactly when loading threw
    or the loaded value is one on which [createPaletteButtons] throws; in
    particular a successful run never shows it. *)
Theorem notice_shown_exactly_on_failure
    (net : nat -> fetch_outcome) (w : world) (kids : list element) :
  container w = Some kids ->
  container (exec (initializeInterface net) w) = Some [ERROR_NOTICE] <->
  match load_result net (fetches (trace w)) with
  | Normal v => presentable v = false
  | Throw _ => True
  end.
Proof.
  intros Hc. unfold exec. rewrite initializeInterface_run.
  set (w1 := add_trace w (load_events net (fetches (trace w)))).
  assert (Hc1 : container w1 = Some kids) by done.
  destruct (load_result net (fetches (trace w))) as [v | e].
  - pose proof (createPaletteButtons_outcome v w1 kids Hc1) as Hout.
    destruct (presentable v) eqn:Hp.
    + split; [| done]. intros Hnotice. exfalso.
      destruct v as [| | | | | items |]; try done.
      cbn [presentable] in Hp. apply andb_prop in Hp as [Hok Hfirst].
      destruct (createPaletteButtons_array_ok items w1 kids Hc1 Hok)
        as (bs & Hbs & Heq).
      rewrite Heq in Hnotice.
      destruct items as [| first rest].
      * apply Forall2_nil_inv_l in Hbs as ->. cbn in Hnotice. done.
      * cbn [length Nat.ltb Nat.leb lookup list_lookup default id]
          in Hnotice.
        pose proof (applyPalette_container first (with_children w1 bs))
          as Hkeep.
        rewrite (apply_ok_run first (with_children w1 bs)) in Hfirst.
        destruct (applyPalette first (with_children w1 bs))
          as [[[] | e] w2]; [| done].
        cbn [fst snd container with_children] in *.
        rewrite Hkeep in Hnotice. injection Hnotice as ->.
        apply Forall2_cons_inv_l in Hbs as (b & bs' & Hb & _ & Heqbs).
        injection Heqbs as <- _.
        apply build_button_facts in Hb as [Htag _]. done.
    + split; [done |]. intros _.
      assert (Hhas : has_container (exec (createPaletteButtons v) w1)).
      { apply createPaletteButtons_has_container. by exists kids. }
      unfold outcome in Hout. unfold exec in Hhas.
      destruct (createPaletteButtons v w1) as [[[] | e] w2].
      * cbn in Hout. destruct Hout as [Hout _].
        by specialize (Hout eq_refl).
      * rewrite on_error_run. cbn [fst snd container] in *.
        destruct Hhas as [kids2 ->]. done.
  - rewrite on_error_run. cbn [snd container]. by rewrite Hc1.
Qed.

(** X12. After [createPaletteButtons] on well-formed palettes, a control
    whose palette the host accepts decides the theme when it is activated
    last: if the host accepts the four colours of [P[k]], activating control
    [j] and then control [k] leaves the same root declarations as
    activating control [k] alone, the four variables holding the colours of
    [P[k]] in the host's form. *)
Theorem last_click_decides_the_theme
    (P : list Palette) (j k : nat) (pj pk : Palette) (w : world)
    (kids : list element) :
  container w = Some kids ->
  P !! j = Some pj ->
  P !! k = Some pk ->
  accepted pk = true ->
  let w1 := exec (createPaletteButtons (palettes_value P)) w in
  root_style (exec (click_control j >> click_control k) w1) =
    root_style (exec (click_control k) w1) /\
  active_theme (exec (click_control j >> click_control k) w1) =
    stored_theme pk.
Proof.
  intros Hc Hj Hk Hpk. cbn zeta.
  assert (Hr : exec (createPaletteButtons (palettes_value P)) w
               = rendered P w).
  { unfold exec. by rewrite createPaletteButtons_palettes. }
  rewrite Hr. clear Hr.
  assert (Hkids : container (rendered P w) = Some (button_of <$> P)).
  { unfold rendered. rewrite Hc. by destruct P. }
  unfold exec, bind, active_theme.
  rewrite (click_control_buttons P j pj _ Hkids Hj).
  rewrite (click_control_buttons P k pk (rendered P w) Hkids Hk).
  rewrite (click_control_buttons P k pk); [| exact Hkids | exact Hk].
  cbn [snd root_style]. rewrite with_theme_overwrites by done.
  split; [done |]. rewrite with_theme_vars. by apply theme_after_accepted.
Qed.

(** X13. A run whose loading throws (a rejected retrieval, three status
    failures, or a body that is not valid JSON) changes no root declaration
    at all: no theme is applied. *)
Theorem failed_load_applies_no_theme
    (net : nat -> fetch_outcome) (w : world) (e : exn) :
  load_result net (fetches (trace w)) = Throw e ->
  outcome (load net) w = Throw e /\
  root_style (exec (initializeInterface net) w) = root_style w.
Proof.
  intros Hload. unfold outcome, exec.
  rewrite load_run, initializeInterface_run, Hload, on_error_run. done.
Qed.

End Host.

(** ** The theorems on sample data, with the host of the sample runs *)

Example hex_host_accepts_ocean :
  accepted hex_host ocean = true /\
  stored_theme hex_host ocean = palette_theme ocean /\
  hex_host "color" (primary ocean) = Some "rgb(0, 105, 148)" /\
  accepted hex_host sloppy = false.
Proof. repeat split; reflexivity. Qed.

(** The scenario of the specification: one palette, one control labelled
    with its name, the four variables set when the call returns. *)
Example ocean_scenario :
  exec (createPaletteButtons hex_host (palettes_value [ocean])) fresh_page =
  mkWorld
    (<["--color-background" := "#f0f8ff"]>
       (<["--color-text" := "#ffffff"]>
          (<["--color-secondary" := "#0099cc"]>
             (<["--color-primary" := "#006994"]> ∅))))
    (Some [mkElement "button" "Ocean" BUTTON_CLASS
             (<["borderWidth" := "2px"]>
                (<["borderColor" := "rgb(0, 105, 148)"]>
                   (<["color" := "rgb(0, 105, 148)"]>
                      (<["backgroundColor" := "white"]> ∅))))
             [ApplyOnClick (palette_value ocean)]])
    [ConsoleLog "Applied palette: Ocean"] [].
Proof. reflexivity. Qed.

(** The ways in which what follows a successful retrieval throws. *)
Example garbled_body_throws :
  load (fun _ => Responds garbled) fresh_page =
  (Throw SyntaxError, add_trace fresh_page [EvFetch PALETTES_FILE]).
Proof. reflexivity. Qed.

Example null_entry_throws :
  createPaletteButtons hex_host null_entry fresh_page =
  (Throw TypeError, mkWorld ∅ (Some [button_of hex_host ocean]) [] []).
Proof. reflexivity. Qed.

Example not_a_list_throws :
  createPaletteButtons hex_host not_a_list used_page =
  (Throw TypeError,
   mkWorld (<["--color-primary" := "#000000"]> ∅) (Some []) [] []).
Proof. reflexivity. Qed.

Example odd_secondary_throws :
  outcome (createPaletteButtons hex_host odd_secondary) fresh_page
    = Throw TypeError /\
  root_style (exec (createPaletteButtons hex_host odd_secondary) fresh_page)
    = <["--color-primary" := "#111111"]> ∅ /\
  length
    <$> container (exec (createPaletteButtons hex_host odd_secondary)
                     fresh_page)
    = Some 1.
Proof. repeat split; reflexivity. Qed.

(** C1 at the failing input: on a network that rejects the first retrieval
    and would serve the palettes on the second, [initializeInterface] issues
    one retrieval only and shows the error notice; on the network that
    answers the first retrieval with a non-success status instead, the
    second retrieval is issued and the control is rendered. *)
Lemma rejected_retrieval_counterexample :
  rejects_once 0 = Rejects /\
  fetches (trace (exec (initializeInterface hex_host rejects_once)
                    fresh_page)) = 1 /\
  container (exec (initializeInterface hex_host rejects_once) fresh_page)
    = Some [ERROR_NOTICE] /\
  fetches (trace (exec (initializeInterface hex_host unavailable_once)
                    fresh_page)) = 2 /\
  container (exec (initializeInterface hex_host unavailable_once) fresh_page)
    = Some [button_of hex_host ocean].
Proof. repeat split; vm_compute; reflexivity. Qed.

(** C9, as stated, fails: on a page whose primary variable is set,
    [applyPalette] on a well-formed palette whose primary the host does not
    accept and whose secondary is empty completes normally, the primary
    variable keeps the value it had, the secondary variable is removed, and
    the other two take the palette's values: the four variables do not hold
    the palette's four values, and the theme is updated in part. *)
Lemma applyPalette_partial_update_counterexample :
  let w' := exec (applyPalette hex_host (palette_value sloppy)) used_page in
  outcome (applyPalette hex_host (palette_value sloppy)) used_page
    = Normal tt /\
  active_theme used_page = [Some "#000000"; None; None; None] /\
  active_theme w' = [Some "#000000"; None; Some "#ffffff"; Some "#f0f8ff"] /\
  active_theme w' <> palette_theme sloppy.
Proof.
  cbn zeta. split; [reflexivity |]. split; [reflexivity |].
  split; [reflexivity |]. vm_compute. discriminate.
Qed.

(** C3, as stated, fails: [createPaletteButtons] on the one-palette
    sequence made of that palette creates its control, and the four
    variables do not hold the colours of [P[0]] when it returns. *)
Lemma render_applies_first_counterexample :
  let w' :=
    exec (createPaletteButtons hex_host (palettes_value [sloppy])) used_page
  in
  length <$> container w' = Some 1 /\
  active_theme w' = [Some "#000000"; None; Some "#ffffff"; Some "#f0f8ff"] /\
  active_theme w' <> palette_theme sloppy.
Proof.
  cbn zeta. split; [reflexivity |]. split; [reflexivity |].
  vm_compute. discriminate.
Qed.

(** C4, as stated, fails: after [createPaletteButtons] on two palettes,
    the second being that palette, a click on the second control leaves the
    primary colour of the first palette, applied by default, in place: the
    prior theme is not overwritten by the four colours of [P[1]]. *)
Lemma click_overwrites_counterexample :
  let w1 :=
    exec (createPaletteButtons hex_host (palettes_value [ocean; sloppy]))
      fresh_page in
  let w2 := exec (click_control hex_host 1) w1 in
  [ocean; sloppy] !! 1 = Some sloppy /\
  active_theme w1 = palette_theme ocean /\
  active_theme w2 = [Some "#006994"; None; Some "#ffffff"; Some "#f0f8ff"] /\
  active_theme w2 <> palette_theme sloppy.
Proof.
  cbn zeta. split; [reflexivity |]. split; [reflexivity |].
  split; [reflexivity |]. vm_compute. discriminate.
Qed.


Lemma render_creates_controls_and_applies_first_witness :
  0 < length [ocean; dusk] /\
  container used_page = Some [stale_button] /\
  let w' :=
    exec (createPaletteButtons hex_host (palettes_value [ocean; dusk]))
      used_page in
  container w' = Some [button_of hex_host ocean; button_of hex_host dusk] /\
  active_theme w' = stored_theme hex_host ocean.
Proof.
  assert (H0 : 0 < length [ocean; dusk]) by (simpl; lia).
  split; [exact H0 |]. split; [reflexivity |].
  destruct (render_creates_controls_and_applies_first hex_host
              [ocean; dusk] used_page [stale_button] H0 eq_refl)
    as (_ & controls & Hc & Hb & _ & _ & Hth).
  split; [rewrite Hc, Hb; reflexivity |].
  exact (proj2 (proj2 (Hth ocean eq_refl)) eq_refl).
Defined.

Lemma click_applies_captured_palette_witness :
  container fresh_page = Some [] /\
  [ocean; dusk] !! 1 = Some dusk /\
  let w1 :=
    exec (createPaletteButtons hex_host (palettes_value [ocean; dusk]))
      fresh_page in
  let w2 := exec (createPaletteButtons hex_host (palettes_value [ocean])) w1 in
  exists b,
    container w1 ≫= (fun kids => kids !! 1) = Some b /\
    active_theme (exec (click hex_host b) w2) = stored_theme hex_host dusk.
Proof.
  split; [reflexivity |]. split; [reflexivity |]. cbn zeta.
  destruct (click_applies_captured_palette hex_host
              [ocean; dusk] 1 dusk fresh_page [] eq_refl eq_refl)
    as (b & Hb & _ & Hall).
  exists b. split; [exact Hb |].
  exact (proj1 (proj2 (proj2 (proj2 (Hall _)))) eq_refl).
Defined.

Lemma first_success_no_wait_no_retry_witness :
  always_serves (palettes_value [ocean]) (fetches (trace fresh_page))
    = Responds (served (palettes_value [ocean])) /\
  ok (served (palettes_value [ocean])) = true /\
  json (served (palettes_value [ocean])) = Some (palettes_value [ocean]) /\
  trace (exec (initializeInterface hex_host
                 (always_serves (palettes_value [ocean]))) fresh_page)
    = trace fresh_page ++ [EvFetch PALETTES_FILE].
Proof.
  split; [reflexivity |]. split; [reflexivity |]. split; [reflexivity |].
  exact (proj1 (proj2 (first_success_no_wait_no_retry hex_host
                         (always_serves (palettes_value [ocean])) fresh_page
                         (served (palettes_value [ocean]))
                         (palettes_value [ocean])
                         eq_refl eq_refl eq_refl))).
Defined.

Lemma status_failures_wait_after_each_attempt_witness :
  status_failures always_unavailable (fetches (trace fresh_page)) maxRetries
    = true /\
  waits (trace (exec (initializeInterface hex_host always_unavailable)
                  fresh_page))
    = waits (trace fresh_page) ++ [100; 200; 400]%Z.
Proof.
  split; [reflexivity |].
  exact (proj2 (proj2 (status_failures_wait_after_each_attempt hex_host
                         always_unavailable fresh_page eq_refl))).
Defined.


Lemma rejected_retrieval_is_not_retried_witness :
  1 < maxRetries /\
  status_failures unavailable_then_rejects (fetches (trace fresh_page)) 1
    = true /\
  unavailable_then_rejects (fetches (trace fresh_page) + 1) = Rejects /\
  trace (exec (initializeInterface hex_host unavailable_then_rejects)
           fresh_page)
    = trace fresh_page ++ backoff 0 1 ++ [EvFetch PALETTES_FILE].
Proof.
  assert (H1 : 1 < maxRetries) by (unfold maxRetries; lia).
  split; [exact H1 |]. split; [reflexivity |]. split; [reflexivity |].
  exact (proj1 (proj2 (rejected_retrieval_is_not_retried hex_host
                         unavailable_then_rejects 1 fresh_page
                         H1 eq_refl eq_refl))).
Defined.

Lemma failure_after_successful_fetch_shows_notice_witness :
  container fresh_page = Some [] /\
  outcome (retry_loop (always_serves odd_secondary) maxRetries 0 None)
    fresh_page = Normal (Some (served odd_secondary)) /\
  ok (served odd_secondary) = true /\
  outcome
    (let* palettes := response_json (served odd_secondary) in
     createPaletteButtons hex_host palettes)
    (exec (retry_loop (always_serves odd_secondary) maxRetries 0 None)
       fresh_page) = Throw TypeError /\
  container (exec (initializeInterface hex_host (always_serves odd_secondary))
               fresh_page) = Some [ERROR_NOTICE].
Proof.
  split; [reflexivity |]. split; [reflexivity |]. split; [reflexivity |].
  split; [reflexivity |].
  exact (proj1 (proj2 (failure_after_successful_fetch_shows_notice hex_host
                         (always_serves odd_secondary) fresh_page []
                         (served odd_secondary) TypeError
                         eq_refl eq_refl eq_refl eq_refl))).
Defined.

Lemma success_ends_the_loop_witness :
  1 < maxRetries /\
  status_failures unavailable_then_garbled (fetches (trace fresh_page)) 1
    = true /\
  unavailable_then_garbled (fetches (trace fresh_page) + 1)
    = Responds garbled /\
  ok garbled = true /\
  load unavailable_then_garbled fresh_page =
  (Throw SyntaxError,
   add_trace fresh_page (backoff 0 1 ++ [EvFetch PALETTES_FILE])).
Proof.
  assert (H1 : 1 < maxRetries) by (unfold maxRetries; lia).
  split; [exact H1 |]. split; [reflexivity |]. split; [reflexivity |].
  split; [reflexivity |].
  exact (success_ends_the_loop unavailable_then_garbled 1 fresh_page garbled
           H1 eq_refl eq_refl eq_refl).
Defined.

Lemma recovery_renders_the_palettes_witness :
  2 < maxRetries /\
  status_failures unavailable_twice (fetches (trace fresh_page)) 2 = true /\
  unavailable_twice (fetches (trace fresh_page) + 2)
    = Responds (served (palettes_value [ocean; dusk])) /\
  ok (served (palettes_value [ocean; dusk])) = true /\
  json (served (palettes_value [ocean; dusk]))
    = Some (palettes_value [ocean; dusk]) /\
  initializeInterface hex_host unavailable_twice fresh_page =
  (Normal tt,
   rendered hex_host [ocean; dusk]
     (add_trace fresh_page (backoff 0 2 ++ [EvFetch PALETTES_FILE]))).
Proof.
  assert (H2 : 2 < maxRetries) by (unfold maxRetries; lia).
  split; [exact H2 |]. split; [reflexivity |]. split; [reflexivity |].
  split; [reflexivity |]. split; [reflexivity |].
  exact (recovery_renders_the_palettes hex_host unavailable_twice 2
           fresh_page (served (palettes_value [ocean; dusk])) [ocean; dusk]
           H2 eq_refl eq_refl eq_refl eq_refl).
Defined.

Lemma missing_container_is_reported_only_witness :
  container bare_page = None /\
  outcome (createPaletteButtons hex_host not_a_list) bare_page = Normal tt /\
  root_style (exec (initializeInterface hex_host
                      (always_serves (palettes_value [ocean]))) bare_page)
    = root_style bare_page.
Proof.
  split; [reflexivity |].
  destruct (missing_container_is_reported_only hex_host bare_page eq_refl)
    as [Hrender Hrun].
  split.
  - unfold outcome. rewrite (Hrender not_a_list). reflexivity.
  - exact (proj1 (Hrun (always_serves (palettes_value [ocean])))).
Defined.

Lemma initializeInterface_keeps_other_declarations_witness :
  ("font-size" ∉ theme_vars) /\
  root_style (exec (initializeInterface hex_host
                      (always_serves (palettes_value [ocean]))) styled_page)
    !! "font-size" = root_style styled_page !! "font-size".
Proof.
  assert (H : "font-size" ∉ theme_vars).
  { apply (bool_decide_unpack _). vm_compute. exact I. }
  split; [exact H |].
  exact (initializeInterface_keeps_other_declarations hex_host
           (always_serves (palettes_value [ocean])) styled_page "font-size"
           H).
Defined.

Lemma presenter_completes_exactly_on_presentable_witness :
  container fresh_page = Some [] /\
  presentable loose_entries = true /\
  outcome (createPaletteButtons hex_host loose_entries) fresh_page
    = Normal tt.
Proof.
  split; [reflexivity |]. split; [reflexivity |].
  exact (proj2 (presenter_completes_exactly_on_presentable hex_host
                  loose_entries fresh_page [] eq_refl) eq_refl).
Defined.

Lemma every_entry_gets_its_control_witness :
  container fresh_page = Some [] /\
  outcome (createPaletteButtons hex_host loose_entries) fresh_page
    = Normal tt /\
  exists bs,
    container (exec (createPaletteButtons hex_host loose_entries) fresh_page)
      = Some bs /\
    length bs = 3 /\
    forall b, bs !! 2 = Some b ->
      listeners b
        = [ApplyOnClick (VObj [("primary", VNum "255"); ("name", VNull)])] /\
      style b !! "color" = None /\
      style b !! "backgroundColor" = Some "white".
Proof.
  split; [reflexivity |]. split; [reflexivity |].
  destruct (every_entry_gets_its_control hex_host
              [VObj []; VNum "7";
               VObj [("primary", VNum "255"); ("name", VNull)]]
              fresh_page [] eq_refl eq_refl)
    as (bs & Hbs & Hlen & Hall).
  exists bs. split; [exact Hbs |]. split; [exact Hlen |].
  intros b Hb.
  destruct (Hall 2 _ b eq_refl Hb)
    as (_ & _ & Hl & _ & p & color & Hp & Hcolor & _ & Hbg & Hcol & _).
  injection Hp as <-. injection Hcolor as <-.
  split; [exact Hl |]. split; [exact Hcol | exact Hbg].
Defined.

Lemma notice_shown_exactly_on_failure_witness :
  container used_page = Some [stale_button] /\
  container (exec (initializeInterface hex_host (always_serves null_entry))
               used_page)
    = Some [ERROR_NOTICE].
Proof.
  split; [reflexivity |].
  exact (proj2 (notice_shown_exactly_on_failure hex_host
                  (always_serves null_entry) used_page [stale_button]
                  eq_refl) eq_refl).
Defined.

Lemma last_click_decides_the_theme_witness :
  container fresh_page = Some [] /\
  [ocean; dusk] !! 1 = Some dusk /\
  [ocean; dusk] !! 0 = Some ocean /\
  accepted hex_host ocean = true /\
  active_theme
    (exec (click_control hex_host 1 >> click_control hex_host 0)
       (exec (createPaletteButtons hex_host (palettes_value [ocean; dusk]))
          fresh_page))
    = stored_theme hex_host ocean.
Proof.
  split; [reflexivity |]. split; [reflexivity |]. split; [reflexivity |].
  split; [reflexivity |].
  exact (proj2 (last_click_decides_the_theme hex_host
                  [ocean; dusk] 1 0 dusk ocean fresh_page []
                  eq_refl eq_refl eq_refl eq_refl)).
Defined.

Lemma failed_load_applies_no_theme_witness :
  load_result unavailable_then_rejects (fetches (trace styled_page))
    = Throw TypeError /\
  root_style (exec (initializeInterface hex_host unavailable_then_rejects)
                styled_page)
    = root_style styled_page.
Proof.
  split; [reflexivity |].
  exact (proj2 (failed_load_applies_no_theme hex_host
                  unavailable_then_rejects styled_page TypeError eq_refl)).
Defined.
